(** * discord.ext.webhook_events: the webhook route and its dispatcher

    A shallow embedding of [src/discord/ext/webhook_events/client.py].
    The package glues an aiohttp server onto a discord.py client: a POST
    handler reads a JSON envelope, branches on its [type], and forwards the
    nested event to [_dispatch_webhook_event], which in turn calls into the
    client's connection state and its event bus.

    The request body is modelled as the Python value [request.json()]
    returns; handlers are computations over the client (connection state
    plus the notifications handed to [dispatch]) that either return or
    raise, and a raised exception keeps the mutations made before it. *)

From Stdlib Require Import ZArith String List Lia.
From Stdlib Require Import Floats.SpecFloat.
From stdpp Require Import base option gmap strings list.

Local Open Scope string_scope.
Local Open Scope list_scope.
Local Open Scope Z_scope.

(** ** JSON values as Python objects *)

(** What [json.loads] produces: [None], [bool], [int] (unbounded),
    [float] (IEEE binary64), [str], [list] and [dict] keyed by [str]. *)
#[warnings="-register-all"]
Inductive json : Type :=
  | JNull
  | JBool (b : bool)
  | JInt (z : Z)
  | JFloat (f : spec_float)
  | JStr (s : string)
  | JList (l : list json)
  | JObj (m : gmap string json).

(** The exceptions the handlers can raise. [LibraryError] stands for
    whatever else a collaborator of the client raises. *)
Inductive exn : Type :=
  | KeyError (key : string)
  | AttributeError (attr : string)
  | TypeError
  | LibraryError (msg : string).

(** Exact comparison of a float with an integer, as Python's [float == int]
    does it: the mathematical values are compared, infinities and NaN equal
    no integer. *)
Definition float_eq_Z (f : spec_float) (n : Z) : bool :=
  match f with
  | S754_zero _ => n =? 0
  | S754_infinity _ | S754_nan => false
  | S754_finite s m e =>
      let v := if s then Z.neg m else Z.pos m in
      if 0 <=? e then v * 2 ^ e =? n else v =? n * 2 ^ (- e)
  end.

(** [v == n] for an integer literal [n]. [bool] is a subclass of [int]
    ([False == 0], [True == 1]); a float compares by value; every other
    type is unequal to an integer. *)
Definition py_eq_int (v : json) (n : Z) : bool :=
  match v with
  | JBool b => Z.b2z b =? n
  | JInt z => z =? n
  | JFloat f => float_eq_Z f n
  | JNull | JStr _ | JList _ | JObj _ => false
  end.

(** [v == s] for a string literal [s]: only an equal [str] compares equal. *)
Definition py_eq_str (v : json) (s : string) : bool :=
  match v with
  | JStr t => String.eqb t s
  | _ => false
  end.

(** [v is None]. *)
Definition py_is_None (v : json) : bool :=
  match v with
  | JNull => true
  | _ => false
  end.

(** [d.get(k)]: on a [dict] the value or [None]; no other JSON type has a
    [get] attribute. *)
Definition py_get (d : json) (k : string) : exn + json :=
  match d with
  | JObj m => inr (default JNull (m !! k))
  | _ => inl (AttributeError "get")
  end.

(** [d[k]] with a string key: on a [dict] the value or [KeyError]; a [list]
    or [str] wants integer indices and the scalars are not subscriptable,
    a [TypeError] in each case. *)
Definition py_getitem (d : json) (k : string) : exn + json :=
  match d with
  | JObj m =>
      match m !! k with
      | Some v => inr v
      | None => inl (KeyError k)
      end
  | _ => inl TypeError
  end.

(** ** The client and its collaborators *)

(** Arguments of a notification: library objects or raw payload values
    ([data['scopes']] is passed on as received). *)
Inductive arg (U G E : Type) : Type :=
  | ArgUser (u : U)
  | ArgGuild (g : G)
  | ArgEntitlement (e : E)
  | ArgJson (j : json).
Arguments ArgUser {U G E} u.
Arguments ArgGuild {U G E} g.
Arguments ArgEntitlement {U G E} e.
Arguments ArgJson {U G E} j.

(** A notification is the event name and the positional arguments given to
    [dispatch]. *)
Definition notification (U G E : Type) : Type := (string * list (arg U G E))%type.

(** The base class a public entry class inherits from, as far as the
    webhook code uses it. None of it lives in this package; it is a
    parameter of everything below.
    - [State] is the connection state ([self._connection]) with its cache;
    - [User_new data] is [discord.User(state=self._connection, data=data)],
      which builds the object from the payload and stores nothing;
    - [_get_create_guild], [parse_entitlement_create] and
      [parse_interaction_create] are the entry points of the connection
      state; they may change it, may raise, and the parsing paths hand their
      own notifications to the event bus;
    - [_get_guild] and [get_entitlement] read the cache.
    Building a user and resolving a guild send no notification of their
    own. *)
Class Backend : Type := {
  State : Type;
  User : Type;
  Guild : Type;
  Entitlement : Type;
  User_new : json -> exn + User;
  guild_id : Guild -> Z;
  entitlement_id : Entitlement -> Z;
  _get_create_guild : json -> State -> (exn + Guild) * State;
  parse_entitlement_create :
    json -> State -> (exn + list (notification User Guild Entitlement)) * State;
  parse_interaction_create :
    json -> State -> (exn + list (notification User Guild Entitlement)) * State;
  _get_guild : State -> Z -> option Guild;
  get_entitlement : State -> Z -> option Entitlement;
}.

(** What a handler hands back to aiohttp: a status and, for a JSON reply,
    the value sent as body. *)
Record Response : Type := mkResponse { status : Z; body : option json }.

(** [Response(status=code)] *)
Definition Response_status (code : Z) : Response := mkResponse code None.

(** [json_response(value)], whose status defaults to 200. *)
Definition json_response (value : json) : Response := mkResponse 200 (Some value).

Section ClientState.
Context `{B : Backend}.

Definition note : Type := notification User Guild Entitlement.

(** The part of a client the webhook code reads and writes: the connection
    state and, in order, the notifications handed to [dispatch]. *)
Record client : Type := mkClient {
  _connection : State;
  dispatched : list note;
}.

(** A method body: runs on a client, returns or raises, and leaves the
    client as it is at that point. *)
Definition M (A : Type) : Type := client -> (exn + A) * client.

Definition ret {A} (a : A) : M A := fun c => (inr a, c).

Definition raise {A} (e : exn) : M A := fun c => (inl e, c).

Definition bind {A C} (m : M A) (k : A -> M C) : M C :=
  fun c =>
    match m c with
    | (inr a, c') => k a c'
    | (inl e, c') => (inl e, c')
    end.

(** An expression that reads no state: its value, or its exception. *)
Definition eval {A} (r : exn + A) : M A :=
  match r with
  | inr a => ret a
  | inl e => raise e
  end.

(** A call into [self._connection]. *)
Definition on_connection {A} (f : State -> (exn + A) * State) : M A :=
  fun c =>
    let '(r, st) := f (_connection c) in
    (r, mkClient st (dispatched c)).

(** [self.dispatch(name, *args)]: the notification goes to the event bus. *)
Definition dispatch (name : string) (args : list (arg User Guild Entitlement)) : M unit :=
  fun c => (inr tt, mkClient (_connection c) (dispatched c ++ [(name, args)])).

(** A parsing entry point of [self._connection] run on [data]: the
    connection state is updated and the notifications of the parsing path
    follow the ones already sent. *)
Definition connection_parse
    (parse : json -> State -> (exn + list note) * State) (data : json) : M unit :=
  fun c =>
    match parse data (_connection c) with
    | (inr ns, st) => (inr tt, mkClient st (dispatched c ++ ns))
    | (inl e, st) => (inl e, mkClient st (dispatched c))
    end.

(** [self._connection.parse_entitlement_create(data)] *)
Definition connection_parse_entitlement_create : json -> M unit :=
  connection_parse parse_entitlement_create.

(** [self._connection.parse_interaction_create(data)] *)
Definition connection_parse_interaction_create : json -> M unit :=
  connection_parse parse_interaction_create.
End ClientState.

Declare Scope py_scope.
Delimit Scope py_scope with py.
Notation "x <- m ;; k" := (bind m (fun x => k))
  (at level 100, m at next level, k at level 200, right associativity) : py_scope.
Notation "m ;; k" := (bind m (fun _ => k))
  (at level 100, k at level 200, right associativity) : py_scope.
Local Open Scope py_scope.

(** ** class Client(discord.Client) *)
Module Client.
Section Methods.
Context `{B : Backend}.

(** [Client._dispatch_webhook_event] *)
Definition _dispatch_webhook_event (event : json) : M unit :=
  type <- eval (py_getitem event "type") ;;
  if py_eq_str type "APPLICATION_AUTHORIZED" then
    data <- eval (py_getitem event "data") ;;
    guild_data <- eval (py_get data "guild") ;;
    user_data <- eval (py_getitem data "user") ;;
    user <- eval (User_new user_data) ;;
    if py_is_None guild_data then
      scopes <- eval (py_getitem data "scopes") ;;
      dispatch "user_install" [ArgUser user; ArgJson scopes]
    else
      guild <- on_connection (_get_create_guild guild_data) ;;
      scopes <- eval (py_getitem data "scopes") ;;
      dispatch "guild_install" [ArgGuild guild; ArgUser user; ArgJson scopes]
  else
    type' <- eval (py_getitem event "type") ;;
    if py_eq_str type' "ENTITLEMENT_CREATE" then
      data <- eval (py_getitem event "data") ;;
      connection_parse_entitlement_create data
    else
      ret tt.

(** [Client.__route]; [data] is the value of [await request.json()]. *)
Definition __route (data : json) : M Response :=
  type <- eval (py_get data "type") ;;
  if py_eq_int type 0 then
    ret (Response_status 204)
  else if py_eq_int type 1 then
    event <- eval (py_getitem data "event") ;;
    _dispatch_webhook_event event ;;
    ret (Response_status 204)
  else
    ret (Response_status 400).

(** [Client.__interactions_route]; [data] is the received interaction. *)
Definition __interactions_route (data : json) : M Response :=
  type <- eval (py_get data "type") ;;
  if py_eq_int type 1 then
    ret (json_response (JObj {[ "type" := JInt 1 ]}))
  else
    connection_parse_interaction_create data ;;
    ret (Response_status 204).
End Methods.
End Client.

(** ** class AutoShardedClient(discord.AutoShardedClient) *)
Module AutoShardedClient.
Section Methods.
Context `{B : Backend}.

(** [AutoShardedClient._dispatch_webhook_event] *)
Definition _dispatch_webhook_event (event : json) : M unit :=
  type <- eval (py_getitem event "type") ;;
  if py_eq_str type "APPLICATION_AUTHORIZED" then
    data <- eval (py_getitem event "data") ;;
    guild_data <- eval (py_get data "guild") ;;
    user_data <- eval (py_getitem data "user") ;;
    user <- eval (User_new user_data) ;;
    if py_is_None guild_data then
      scopes <- eval (py_getitem data "scopes") ;;
      dispatch "user_install" [ArgUser user; ArgJson scopes]
    else
      guild <- on_connection (_get_create_guild guild_data) ;;
      scopes <- eval (py_getitem data "scopes") ;;
      dispatch "guild_install" [ArgGuild guild; ArgUser user; ArgJson scopes]
  else
    type' <- eval (py_getitem event "type") ;;
    if py_eq_str type' "ENTITLEMENT_CREATE" then
      data <- eval (py_getitem event "data") ;;
      connection_parse_entitlement_create data
    else
      ret tt.

(** [AutoShardedClient.__route]; [data] is the value of [await request.json()]. *)
Definition __route (data : json) : M Response :=
  type <- eval (py_get data "type") ;;
  if py_eq_int type 0 then
    ret (Response_status 204)
  else if py_eq_int type 1 then
    event <- eval (py_getitem data "event") ;;
    _dispatch_webhook_event event ;;
    ret (Response_status 204)
  else
    ret (Response_status 400).

(** [AutoShardedClient.__interactions_route]; [data] is the received interaction. *)
Definition __interactions_route (data : json) : M Response :=
  type <- eval (py_get data "type") ;;
  if py_eq_int type 1 then
    ret (json_response (JObj {[ "type" := JInt 1 ]}))
  else
    connection_parse_interaction_create data ;;
    ret (Response_status 204).
End Methods.
End AutoShardedClient.

(** ** class Bot(commands.Bot) *)
Module Bot.
Section Methods.
Context `{B : Backend}.

(** [Bot._dispatch_webhook_event] *)
Definition _dispatch_webhook_event (event : json) : M unit :=
  type <- eval (py_getitem event "type") ;;
  if py_eq_str type "APPLICATION_AUTHORIZED" then
    data <- eval (py_getitem event "data") ;;
    guild_data <- eval (py_get data "guild") ;;
    user_data <- eval (py_getitem data "user") ;;
    user <- eval (User_new user_data) ;;
    if py_is_None guild_data then
      scopes <- eval (py_getitem data "scopes") ;;
      dispatch "user_install" [ArgUser user; ArgJson scopes]
    else
      guild <- on_connection (_get_create_guild guild_data) ;;
      scopes <- eval (py_getitem data "scopes") ;;
      dispatch "guild_install" [ArgGuild guild; ArgUser user; ArgJson scopes]
  else
    type' <- eval (py_getitem event "type") ;;
    if py_eq_str type' "ENTITLEMENT_CREATE" then
      data <- eval (py_getitem event "data") ;;
      connection_parse_entitlement_create data
    else
      ret tt.

(** [Bot.__route]; [data] is the value of [await request.json()]. *)
Definition __route (data : json) : M Response :=
  type <- eval (py_get data "type") ;;
  if py_eq_int type 0 then
    ret (Response_status 204)
  else if py_eq_int type 1 then
    event <- eval (py_getitem data "event") ;;
    _dispatch_webhook_event event ;;
    ret (Response_status 204)
  else
    ret (Response_status 400).

(** [Bot.__interactions_route]; [data] is the received interaction. *)
Definition __interactions_route (data : json) : M Response :=
  type <- eval (py_get data "type") ;;
  if py_eq_int type 1 then
    ret (json_response (JObj {[ "type" := JInt 1 ]}))
  else
    connection_parse_interaction_create data ;;
    ret (Response_status 204).
End Methods.
End Bot.

(** ** class AutoShardedBot(commands.AutoShardedBot) *)
Module AutoShardedBot.
Section Methods.
Context `{B : Backend}.

(** [AutoShardedBot._dispatch_webhook_event] *)
Definition _dispatch_webhook_event (event : json) : M unit :=
  type <- eval (py_getitem event "type") ;;
  if py_eq_str type "APPLICATION_AUTHORIZED" then
    data <- eval (py_getitem event "data") ;;
    guild_data <- eval (py_get data "guild") ;;
    user_data <- eval (py_getitem data "user") ;;
    user <- eval (User_new user_data) ;;
    if py_is_None guild_data then
      scopes <- eval (py_getitem data "scopes") ;;
      dispatch "user_install" [ArgUser user; ArgJson scopes]
    else
      guild <- on_connection (_get_create_guild guild_data) ;;
      scopes <- eval (py_getitem data "scopes") ;;
      dispatch "guild_install" [ArgGuild guild; ArgUser user; ArgJson scopes]
  else
    type' <- eval (py_getitem event "type") ;;
    if py_eq_str type' "ENTITLEMENT_CREATE" then
      data <- eval (py_getitem event "data") ;;
      connection_parse_entitlement_create data
    else
      ret tt.

(** [AutoShardedBot.__route]; [data] is the value of [await request.json()]. *)
Definition __route (data : json) : M Response :=
  type <- eval (py_get data "type") ;;
  if py_eq_int type 0 then
    ret (Response_status 204)
  else if py_eq_int type 1 then
    event <- eval (py_getitem data "event") ;;
    _dispatch_webhook_event event ;;
    ret (Response_status 204)
  else
    ret (Response_status 400).

(** [AutoShardedBot.__interactions_route]; [data] is the received interaction. *)
Definition __interactions_route (data : json) : M Response :=
  type <- eval (py_get data "type") ;;
  if py_eq_int type 1 then
    ret (json_response (JObj {[ "type" := JInt 1 ]}))
  else
    connection_parse_interaction_create data ;;
    ret (Response_status 204).
End Methods.
End AutoShardedBot.

(** ** The server around the handlers *)

(** Modelled from the spec: the HTTP server engine (aiohttp) is outside this
    package. A handler that returns a response yields that response's
    status; an exception the handler does not catch is "surfaced as a server
    error", status 500. *)
Definition http_status (r : exn + Response) : Z :=
  match r with
  | inr resp => status resp
  | inl _ => 500
  end.

Definition is_4xx (code : Z) : bool := (400 <=? code) && (code <? 500).

(** ** What the spec asks of the connection state *)

(** Modelled from the spec: the connection state is not part of this
    package, and these are the two cache promises the spec makes on its
    behalf: the guild [_get_create_guild] hands back is the one the cache
    resolves under its id, and the entitlement-parsing path is "responsible
    for cache insertion and emitting its own notification". *)
Class BackendCaches (B : Backend) : Prop := {
  guild_cached :
    forall gd st g st',
      _get_create_guild gd st = (inr g, st') ->
      _get_guild st' (guild_id g) = Some g;
  entitlement_cached :
    forall d st ns st',
      parse_entitlement_create d st = (inr ns, st') ->
      exists e,
        ns = [("entitlement_create", [ArgEntitlement e])] /\
        get_entitlement st' (entitlement_id e) = Some e;
}.

(** Modelled from the spec: a connection state with the behaviour the spec
    attributes to the gateway client, which is not part of this package. The
    cache keeps guild and entitlement payloads by id; a guild is resolved if
    its id is cached and created otherwise; an entitlement is inserted and
    announced with an "entitlement_create" notification; an interaction is
    announced as received. Objects are their id and payload; ids are read
    from the payload's integer [id] field. *)
Module Reference.
Record cache : Type := mkCache {
  guilds : gmap Z json;
  entitlements : gmap Z json;
}.

Record object : Type := mkObject { obj_id : Z; obj_data : json }.

Definition payload_id (d : json) : exn + Z :=
  match py_getitem d "id" with
  | inr (JInt z) => inr z
  | inr _ => inl (LibraryError "id")
  | inl e => inl e
  end.

Definition new_object (d : json) : exn + object :=
  match payload_id d with
  | inr z => inr (mkObject z d)
  | inl e => inl e
  end.

Definition get_create_guild (d : json) (st : cache) : (exn + object) * cache :=
  match payload_id d with
  | inl e => (inl e, st)
  | inr z =>
      match guilds st !! z with
      | Some d' => (inr (mkObject z d'), st)
      | None => (inr (mkObject z d), mkCache (<[z := d]> (guilds st)) (entitlements st))
      end
  end.

Definition parse_entitlement (d : json) (st : cache)
  : (exn + list (notification object object object)) * cache :=
  match payload_id d with
  | inl e => (inl e, st)
  | inr z =>
      (inr [("entitlement_create", [ArgEntitlement (mkObject z d)])],
       mkCache (guilds st) (<[z := d]> (entitlements st)))
  end.

Definition parse_interaction (d : json) (st : cache)
  : (exn + list (notification object object object)) * cache :=
  (inr [("interaction", [ArgJson d])], st).

Definition lookup_guild (st : cache) (z : Z) : option object :=
  mkObject z <$> guilds st !! z.

Definition lookup_entitlement (st : cache) (z : Z) : option object :=
  mkObject z <$> entitlements st !! z.

#[export] Instance backend : Backend := {|
  State := cache;
  User := object;
  Guild := object;
  Entitlement := object;
  User_new := new_object;
  guild_id := obj_id;
  entitlement_id := obj_id;
  _get_create_guild := get_create_guild;
  parse_entitlement_create := parse_entitlement;
  parse_interaction_create := parse_interaction;
  _get_guild := lookup_guild;
  get_entitlement := lookup_entitlement;
|}.

Definition empty : @client backend := mkClient (mkCache ∅ ∅) [].
End Reference.

(** ** Client.close under cooperative scheduling

    [close] is a coroutine; the event loop runs one coroutine at a time and
    switches only at an [await]. A call of [close] therefore runs from its
    first line to its first [await] in one piece: the test of
    [self._closing_task], and (when it is unset) [asyncio.create_task] and
    the assignment. The task created runs [_close()], whose statements are
    taken one at a time, so that any other coroutine may run between two of
    them. The teardown statements themselves are taken to complete. The body
    is the same in the four classes. *)
Module Closing.
(** The effects of [_close()], in the order of its statements. *)
Inductive action : Type :=
  | ConnectionClose
  | WsClose (code : Z)
  | ReadyClear
  | SiteStop
  | HttpClose
  | LoopMissing.

(** The tests in front of the statements of [_close()]. *)
Inductive guard : Type :=
  | Always
  | WsOpen
  | ReadySet
  | SiteSet.

(** The attributes the tests read: [self.ws is not None and self.ws.open],
    [self._ready is not MISSING], [self.__site is not None]. *)
Record attrs : Type := mkAttrs {
  ws_open : bool;
  ready_set : bool;
  site_set : bool;
}.

Definition holds (a : attrs) (g : guard) : bool :=
  match g with
  | Always => true
  | WsOpen => ws_open a
  | ReadySet => ready_set a
  | SiteSet => site_set a
  end.

(** The body of the inner coroutine [_close]. *)
Definition _close : list (guard * action) :=
  [ (Always, ConnectionClose);
    (WsOpen, WsClose 1000);
    (ReadySet, ReadyClear);
    (SiteSet, SiteStop);
    (Always, HttpClose);
    (Always, LoopMissing) ].

(** The effects a run of the given statements has. *)
Fixpoint performed (a : attrs) (stmts : list (guard * action)) : list action :=
  match stmts with
  | [] => []
  | (g, act) :: rest =>
      if holds a g then act :: performed a rest else performed a rest
  end.

(** Where a call of [close] stands: not yet run, suspended in
    [await self._closing_task] on the task with the given number, or
    returned. *)
Inductive caller : Type :=
  | Entered
  | Awaiting (t : nat)
  | Returned.

(** The client and the event loop: the attribute [_closing_task] (a task
    number, or [None]), every task [create_task] has made with the
    statements it has left, the teardown effects so far with the task that
    performed each, and the calls of [close]. *)
Record sys : Type := mkSys {
  _closing_task : option nat;
  tasks : list (list (guard * action));
  log : list (nat * action);
  callers : list caller;
}.

(** What the event loop resumes next. *)
Inductive choice : Type :=
  | RunCaller (i : nat)
  | RunTask (t : nat).

Section Loop.
Variable a : attrs.

(** One turn of the event loop; [None] when the choice cannot run (no
    such call or task, the call has returned, the awaited task is not
    done, the task is done). *)
Definition step (ch : choice) (s : sys) : option sys :=
  match ch with
  | RunCaller i =>
      match callers s !! i with
      | Some Entered =>
          match _closing_task s with
          | Some t =>
              Some (mkSys (_closing_task s) (tasks s) (log s)
                      (<[i := Awaiting t]> (callers s)))
          | None =>
              let t := length (tasks s) in
              Some (mkSys (Some t) (tasks s ++ [_close]) (log s)
                      (<[i := Awaiting t]> (callers s)))
          end
      | Some (Awaiting t) =>
          match tasks s !! t with
          | Some [] =>
              Some (mkSys (_closing_task s) (tasks s) (log s)
                      (<[i := Returned]> (callers s)))
          | _ => None
          end
      | _ => None
      end
  | RunTask t =>
      match tasks s !! t with
      | Some ((g, act) :: rest) =>
          Some (mkSys (_closing_task s) (<[t := rest]> (tasks s))
                  (if holds a g then log s ++ [(t, act)] else log s)
                  (callers s))
      | _ => None
      end
  end.

(** A schedule, turn by turn. *)
Fixpoint run (sched : list choice) (s : sys) : option sys :=
  match sched with
  | [] => Some s
  | ch :: rest =>
      match step ch s with
      | Some s' => run rest s'
      | None => None
      end
  end.

(** What a call may be doing while the one task has [rest] left. *)
Definition caller_ok (rest : list (guard * action)) (c : caller) : Prop :=
  match c with
  | Entered => True
  | Awaiting t => t = 0%nat
  | Returned => rest = []
  end.

(** The shape every reachable state has: before the first call has run
    there is no task and no effect; from then on there is the one task,
    number 0, the effects so far are those of the statements it has
    executed, and a call that has returned finds nothing left of it. *)
Definition inv (s : sys) : Prop :=
  match _closing_task s with
  | None =>
      tasks s = [] /\ log s = [] /\ Forall (fun c => c = Entered) (callers s)
  | Some t =>
      t = 0%nat /\
      exists done rest,
        done ++ rest = _close /\
        tasks s = [rest] /\
        log s = pair 0%nat <$> performed a done /\
        Forall (caller_ok rest) (callers s)
  end.
End Loop.

(** A client nobody has closed yet, with [n] calls of [close] made. *)
Definition init (n : nat) : sys := mkSys None [] [] (replicate n Entered).

(** The schedule that lets every call run once, then the task to its end,
    then every call again. *)
Definition fair_schedule (n : nat) : list choice :=
  (RunCaller <$> seq 0 n) ++ replicate (length _close) (RunTask 0)
    ++ (RunCaller <$> seq 0 n).

(** The turns a call still has to take, and the turns left in all: those of
    the calls and the statements of the task (all of [_close] while no task
    has been made). *)
Definition potential (c : caller) : nat :=
  match c with
  | Entered => 2
  | Awaiting _ => 1
  | Returned => 0
  end.

Definition work_left (s : sys) : nat :=
  (sum_list_with potential (callers s) +
   match _closing_task s with
   | None => length _close
   | Some t => length (default [] (tasks s !! t))
   end)%nat.

(** The state once every call has returned. *)
Definition closed (a : attrs) (n : nat) : sys :=
  mkSys (Some 0%nat) [[]] (pair 0%nat <$> performed a _close) (replicate n Returned).
End Closing.

(** ** How the specification reads the payloads *)

(** The value of a body's [type] field as JSON sees it: a number equal to
    [n]. JSON's [true] and [false] are not numbers. *)
Definition json_number_is (v : json) (n : Z) : bool :=
  match v with
  | JInt z => z =? n
  | JFloat f => float_eq_Z f n
  | _ => false
  end.

(** The [type] field of a body; a body without one (a missing key, or a body
    that is no object) has none, which reads as [null]. *)
Definition type_field (data : json) : json :=
  match data with
  | JObj m => default JNull (m !! "type")
  | _ => JNull
  end.

Definition is_JBool (v : json) : bool :=
  match v with
  | JBool _ => true
  | _ => false
  end.

Definition APPLICATION_AUTHORIZED : string := "APPLICATION_AUTHORIZED".
Definition ENTITLEMENT_CREATE : string := "ENTITLEMENT_CREATE".
Definition QUEST_USER_ENROLLMENT : string := "QUEST_USER_ENROLLMENT".

Section Payloads.
Context `{B : Backend}.

(** An envelope (the [dict] [m]) that lacks a nested field the handler
    looks up by subscript, and the key that is missing: the [event] itself,
    the event's [type], the [data] of an event of a handled type, or the
    [user] or [scopes] of an authorization. For [scopes] the steps in front
    of the lookup have to go through: the user is built and, with a guild
    payload, the guild is resolved from the connection state [st]. *)
Inductive lacks_field (st : State) (m : gmap string json) : string -> Prop :=
  | lacks_event :
      m !! "event" = None ->
      lacks_field st m "event"
  | lacks_type em :
      m !! "event" = Some (JObj em) ->
      em !! "type" = None ->
      lacks_field st m "type"
  | lacks_data em t :
      m !! "event" = Some (JObj em) ->
      em !! "type" = Some (JStr t) ->
      t = APPLICATION_AUTHORIZED \/ t = ENTITLEMENT_CREATE ->
      em !! "data" = None ->
      lacks_field st m "data"
  | lacks_user em dm :
      m !! "event" = Some (JObj em) ->
      em !! "type" = Some (JStr APPLICATION_AUTHORIZED) ->
      em !! "data" = Some (JObj dm) ->
      dm !! "user" = None ->
      lacks_field st m "user"
  | lacks_scopes em dm ud u :
      m !! "event" = Some (JObj em) ->
      em !! "type" = Some (JStr APPLICATION_AUTHORIZED) ->
      em !! "data" = Some (JObj dm) ->
      dm !! "user" = Some ud ->
      User_new ud = inr u ->
      (py_is_None (default JNull (dm !! "guild")) = true \/
       exists g st', _get_create_guild (default JNull (dm !! "guild")) st = (inr g, st')) ->
      dm !! "scopes" = None ->
      lacks_field st m "scopes".
End Payloads.

(** ** Sample deliveries

    Payloads in the shape of [types/events.py], run against the reference
    connection state. *)
Module Samples.
Definition user : json := JObj {[ "id" := JInt 42; "username" := JStr "ada" ]}.
Definition guild : json := JObj {[ "id" := JInt 7; "name" := JStr "lab" ]}.
Definition scopes : json := JList [JStr "applications.commands"].
Definition entitlement : json := JObj {[ "id" := JInt 9; "sku_id" := JInt 3 ]}.

Definition user_data : gmap string json :=
  {[ "user" := user; "scopes" := scopes ]}.
Definition guild_data : gmap string json :=
  {[ "user" := user; "scopes" := scopes; "guild" := guild ]}.
Definition null_guild_data : gmap string json :=
  {[ "user" := user; "scopes" := scopes; "guild" := JNull ]}.

Definition authorized (data : gmap string json) : gmap string json :=
  {[ "type" := JStr APPLICATION_AUTHORIZED; "data" := JObj data ]}.
Definition entitlement_create : gmap string json :=
  {[ "type" := JStr ENTITLEMENT_CREATE; "data" := entitlement ]}.
Definition quest : gmap string json :=
  {[ "type" := JStr QUEST_USER_ENROLLMENT ]}.

Definition ping : gmap string json := {[ "type" := JInt 0 ]}.
Definition envelope (event : gmap string json) : gmap string json :=
  {[ "type" := JInt 1; "event" := JObj event ]}.
Definition no_event : gmap string json := {[ "type" := JInt 1 ]}.
Definition odd_type : gmap string json := {[ "type" := JInt 2 ]}.
Definition false_type : gmap string json := {[ "type" := JBool false ]}.

Definition parsed_user : Reference.object := Reference.mkObject 42 user.
Definition parsed_guild : Reference.object := Reference.mkObject 7 guild.

(** A client with an open socket, a readiness event and a bound site. *)
Definition live_client : Closing.attrs := Closing.mkAttrs true true true.

(** Two calls of [close]; the second runs for the first time when the task
    has executed two statements. *)
Definition second_call_mid_teardown : list Closing.choice :=
  [ Closing.RunCaller 0; Closing.RunTask 0; Closing.RunTask 0;
    Closing.RunCaller 1;
    Closing.RunTask 0; Closing.RunTask 0; Closing.RunTask 0; Closing.RunTask 0;
    Closing.RunCaller 0; Closing.RunCaller 1 ].
End Samples.

(** ** The routes registered by [__init__] *)

(** The two bound methods a route can point at. *)
Inductive handler : Type :=
  | RouteHandler
  | InteractionsHandler.

(** aiohttp's [route(method, path, handler)]. *)
Record route_def : Type := mkRoute {
  route_method : string;
  route_path : string;
  route_handler : handler;
}.

(** The list [routes] that [__init__] builds and hands to
    [self._server.add_routes]; it is the same in the four classes. *)
Definition routes (http_interactions : bool) : list route_def :=
  let routes := [mkRoute "POST" "/" RouteHandler] in
  if http_interactions then
    routes ++ [mkRoute "POST" "/interactions" InteractionsHandler]
  else
    routes.

(** Modelled from the spec: the HTTP server engine is outside this package.
    A request goes to the first registered route with its method and its
    path, and to no handler of this package when there is none. *)
Definition resolve (rs : list route_def) (method path : string) : option handler :=
  route_handler <$>
    List.find (fun r => String.eqb (route_method r) method
                        && String.eqb (route_path r) path) rs.

Section Server.
Context `{B : Backend}.

(** A request with the JSON body [data] against a client constructed with
    the given [http_interactions]: the handler's run, or [None] when the
    request reaches neither handler. *)
Definition serve (http_interactions : bool) (method path : string) (data : json)
  : option (M Response) :=
  match resolve (routes http_interactions) method path with
  | Some RouteHandler => Some (Client.__route data)
  | Some InteractionsHandler => Some (Client.__interactions_route data)
  | None => None
  end.

(** What a route makes of the run it wraps: 204 when the run returns, its
    exception otherwise, and the client as the run left it. *)
Definition answered_204 (r : (exn + unit) * client) : (exn + Response) * client :=
  match r with
  | (inr _, c) => (inr (Response_status 204), c)
  | (inl e, c) => (inl e, c)
  end.

End Server.

Definition is_JObj (v : json) : bool :=
  match v with
  | JObj _ => true
  | _ => false
  end.

(** ** Client.start and the site that close stops *)
Module Starting.
(** The coroutines [start] creates: [super().start(token, reconnect=...)],
    [self.login(token)] and [self.__site.start()]. *)
Inductive coroutine : Type :=
  | SuperStart (token : string) (reconnect : bool)
  | Login (token : string)
  | SiteStart (host : string) (port : Z).

(** The attributes [__init__] sets and [start] writes: [connect_to_ws],
    [__site] (a [TCPSite] on a host and port, or [None]), [__bot_task] and
    [__server_task] (the coroutine each task wraps, or [None]). *)
Record fields : Type := mkFields {
  connect_to_ws : bool;
  __site : option (string * Z);
  __bot_task : option coroutine;
  __server_task : option coroutine;
}.

(** The attributes as [__init__] leaves them. *)
Definition __init__ (connect_to_ws : bool) : fields :=
  mkFields connect_to_ws None None None.

(** [Client.start]. [setup] is the outcome of [await self.__runner.setup()]
    and [gather] that of [await asyncio.gather(...)] on the two tasks; both
    belong to the libraries. *)
Definition start (token : string) (reconnect : bool) (host : string) (port : Z)
    (setup : exn + unit) (gather : coroutine -> coroutine -> exn + unit)
    (f : fields) : (exn + unit) * fields :=
  let bot_task :=
    if connect_to_ws f then SuperStart token reconnect else Login token in
  match setup with
  | inl e => (inl e, f)
  | inr _ =>
      let f1 := mkFields (connect_to_ws f) (Some (host, port))
                  (__bot_task f) (__server_task f) in
      let server_task := SiteStart host port in
      let f2 := mkFields (connect_to_ws f1) (__site f1)
                  (Some bot_task) (Some server_task) in
      (gather bot_task server_task, f2)
  end.

(** What the tests in [_close()] read, for a client with these attributes:
    [self.__site is not None], beside the state of the socket and of the
    readiness event, which the base class owns. *)
Definition close_attrs (ws_open ready_set : bool) (f : fields) : Closing.attrs :=
  Closing.mkAttrs ws_open ready_set
    (match __site f with Some _ => true | None => false end).
End Starting.

(** ** Further sample deliveries *)
Module Cases.
(** The user authorization as Discord sends it, with the envelope's and the
    event's other fields filled in. *)
Definition full_event : gmap string json :=
  {[ "type" := JStr APPLICATION_AUTHORIZED;
     "timestamp" := JStr "2025-01-01T00:00:00.000000";
     "data" := JObj (<["integration_type" := JInt 1]> Samples.user_data) ]}.
Definition full_envelope : gmap string json :=
  {[ "version" := JInt 1; "application_id" := JStr "1234567890";
     "type" := JInt 1;
     "event" := JObj (Samples.authorized Samples.user_data) ]}.

Definition event_not_object : gmap string json :=
  {[ "type" := JInt 1; "event" := JStr "APPLICATION_AUTHORIZED" ]}.
Definition data_not_object : gmap string json :=
  {[ "type" := JStr APPLICATION_AUTHORIZED; "data" := JList [] ]}.

(** A user payload without [id], which the reference library rejects. *)
Definition nameless_user : json := JObj {[ "username" := JStr "ada" ]}.
Definition rejected_user_data : gmap string json :=
  {[ "user" := nameless_user; "scopes" := Samples.scopes;
     "guild" := Samples.guild ]}.
Definition no_scopes_data : gmap string json :=
  {[ "user" := Samples.user; "guild" := Samples.guild ]}.
Definition rejected_guild_data : gmap string json :=
  {[ "user" := Samples.user; "scopes" := Samples.scopes; "guild" := JObj ∅ ]}.

Definition interaction_ping : gmap string json := {[ "type" := JInt 1 ]}.
Definition interaction : gmap string json :=
  {[ "type" := JInt 2; "id" := JInt 5 ]}.
End Cases.

(** ** types/events.py: the declared shape of a delivery

    The [TypedDict] declarations as predicates on JSON values. A required
    key must be present with a value of its type, a [NotRequired] key may be
    absent; a [TypedDict] of the library ([User], [Guild], [Entitlement]) is
    taken to be any object, its own fields being the library's business. *)
Module Types.
Definition required (m : gmap string json) (k : string) (ty : json -> bool) : bool :=
  match m !! k with
  | Some v => ty v
  | None => false
  end.

Definition not_required (m : gmap string json) (k : string) (ty : json -> bool) : bool :=
  match m !! k with
  | Some v => ty v
  | None => true
  end.

Definition int (v : json) : bool :=
  match v with
  | JInt _ => true
  | _ => false
  end.

Definition str (v : json) : bool :=
  match v with
  | JStr _ => true
  | _ => false
  end.

Definition list_of (ty : json -> bool) (v : json) : bool :=
  match v with
  | JList l => forallb ty l
  | _ => false
  end.

(** [Literal[0, 1]] *)
Definition Literal_0_1 (v : json) : bool :=
  match v with
  | JInt z => (z =? 0) || (z =? 1)
  | _ => false
  end.

(** [Literal['...']] *)
Definition Literal_str (s : string) (v : json) : bool :=
  match v with
  | JStr t => String.eqb s t
  | _ => false
  end.

(** [Snowflake = Union[str, int]] of the library. *)
Definition Snowflake (v : json) : bool := str v || int v.

(** [User], [Guild], [Entitlement] of the library. *)
Definition library_dict (v : json) : bool := is_JObj v.

Definition WebhookEventType : json -> bool := Literal_0_1.

Definition ApplicationAuthorisedEventData (v : json) : bool :=
  match v with
  | JObj m =>
      not_required m "integration_type" Literal_0_1
      && required m "user" library_dict
      && required m "scopes" (list_of str)
      && not_required m "guild" library_dict
  | _ => false
  end.

Definition ApplicationAuthorisedEvent (v : json) : bool :=
  match v with
  | JObj m =>
      required m "type" (Literal_str "APPLICATION_AUTHORIZED")
      && required m "timestamp" str
      && required m "data" ApplicationAuthorisedEventData
  | _ => false
  end.

Definition EntitlementCreateEvent (v : json) : bool :=
  match v with
  | JObj m =>
      required m "type" (Literal_str "ENTITLEMENT_CREATE")
      && required m "timestamp" str
      && required m "data" library_dict
  | _ => false
  end.

(** [Event = Union[ApplicationAuthorisedEvent, EntitlementCreateEvent]] *)
Definition Event (v : json) : bool :=
  ApplicationAuthorisedEvent v || EntitlementCreateEvent v.

Definition WebhookEvent (v : json) : bool :=
  match v with
  | JObj m =>
      required m "version" int
      && required m "application_id" Snowflake
      && required m "type" WebhookEventType
      && not_required m "event" Event
  | _ => false
  end.
End Types.

Section Library.
Context `{B : Backend}.

(** The exception [e] is one a library call made for the event of the
    envelope [m] raised, on the connection state [st]: building the user,
    resolving the guild, or parsing the entitlement. *)
Inductive raised_by_library (st : State) (m : gmap string json) (e : exn) : Prop :=
  | raised_by_user em dm ud :
      m !! "event" = Some (JObj em) ->
      em !! "data" = Some (JObj dm) ->
      dm !! "user" = Some ud ->
      User_new ud = inl e ->
      raised_by_library st m e
  | raised_by_guild em dm gd st' :
      m !! "event" = Some (JObj em) ->
      em !! "data" = Some (JObj dm) ->
      dm !! "guild" = Some gd ->
      _get_create_guild gd st = (inl e, st') ->
      raised_by_library st m e
  | raised_by_entitlement em d st' :
      m !! "event" = Some (JObj em) ->
      em !! "data" = Some d ->
      parse_entitlement_create d st = (inl e, st') ->
      raised_by_library st m e.
End Library.

(** A delivery of the declared type whose user the reference library
    rejects. *)
Definition typed_rejected_envelope : gmap string json :=
  {[ "version" := JInt 1; "application_id" := JStr "1234567890";
     "type" := JInt 1;
     "event" := JObj {[ "type" := JStr APPLICATION_AUTHORIZED;
                        "timestamp" := JStr "2025-01-01T00:00:00.000000";
                        "data" := JObj Cases.rejected_user_data ]} ]}.

(** ** A connection state that keeps no entitlements

    The connection state of the gateway library as far as entitlements go:
    its [parse_entitlement_create] builds the entitlement from the payload
    and hands it to the event bus as "entitlement_create", and stores
    nothing. Guilds, users and the cache are those of the reference state. *)
Module Gateway.
Definition parse_entitlement (d : json) (st : Reference.cache)
  : (exn + list (notification Reference.object Reference.object Reference.object))
    * Reference.cache :=
  match Reference.new_object d with
  | inl e => (inl e, st)
  | inr entitlement =>
      (inr [("entitlement_create", [ArgEntitlement entitlement])], st)
  end.

#[export] Instance backend : Backend := {|
  State := Reference.cache;
  User := Reference.object;
  Guild := Reference.object;
  Entitlement := Reference.object;
  User_new := Reference.new_object;
  guild_id := Reference.obj_id;
  entitlement_id := Reference.obj_id;
  _get_create_guild := Reference.get_create_guild;
  parse_entitlement_create := parse_entitlement;
  parse_interaction_create := Reference.parse_interaction;
  _get_guild := Reference.lookup_guild;
  get_entitlement := Reference.lookup_entitlement;
|}.

Definition empty : @client backend := mkClient (Reference.mkCache ∅ ∅) [].

(** An entitlement as the platform sends it, and its delivery. *)
Definition entitlement : json :=
  JObj {[ "id" := JInt 9; "sku_id" := JInt 3; "application_id" := JInt 1;
          "user_id" := JInt 42; "type" := JInt 8; "deleted" := JBool false;
          "consumed" := JBool false ]}.
Definition entitlement_create : gmap string json :=
  {[ "type" := JStr ENTITLEMENT_CREATE;
     "timestamp" := JStr "2025-01-01T00:00:00.000000";
     "data" := entitlement ]}.
Definition parsed_entitlement : Reference.object := Reference.mkObject 9 entitlement.
End Gateway.

(** * Properties *)

Section Python.
(** A value equal to one integer is unequal to every other. *)
Lemma float_eq_Z_inj f n k : float_eq_Z f n = true -> float_eq_Z f k = true -> n = k.
Proof.
  destruct f as [s | s | | s m e]; simpl; try discriminate.
  - intros H1 H2. apply Z.eqb_eq in H1, H2. congruence.
  - destruct (0 <=? e) eqn:He.
    + intros H1 H2. apply Z.eqb_eq in H1, H2. congruence.
    + intros H1 H2. apply Z.eqb_eq in H1, H2. apply Z.leb_gt in He.
      assert (0 < 2 ^ (- e)) by (apply Z.pow_pos_nonneg; lia).
      rewrite H1 in H2. apply Z.mul_cancel_r in H2; lia.
Qed.

Lemma py_eq_int_inj v n k : py_eq_int v n = true -> py_eq_int v k = true -> n = k.
Proof.
  destruct v; simpl; try discriminate.
  - intros H1 H2. apply Z.eqb_eq in H1, H2. congruence.
  - intros H1 H2. apply Z.eqb_eq in H1, H2. congruence.
  - apply float_eq_Z_inj.
Qed.

Lemma py_eq_int_1_not_0 v : py_eq_int v 1 = true -> py_eq_int v 0 = false.
Proof.
  intros H1. destruct (py_eq_int v 0) eqn:H0; [|reflexivity].
  pose proof (py_eq_int_inj _ _ _ H1 H0). discriminate.
Qed.

(** On anything but a boolean, [==] against an integer is numeric
    equality. *)
Lemma py_eq_int_number v n : is_JBool v = false -> py_eq_int v n = json_number_is v n.
Proof. destruct v; simpl; intros; congruence. Qed.

Lemma py_eq_str_true v s : py_eq_str v s = true <-> v = JStr s.
Proof.
  destruct v; simpl; split; try discriminate.
  - intros H. apply String.eqb_eq in H. congruence.
  - intros [= ->]. apply String.eqb_refl.
Qed.

Lemma py_eq_str_false v s : v <> JStr s -> py_eq_str v s = false.
Proof.
  intros H. destruct (py_eq_str v s) eqn:E; [|reflexivity].
  apply py_eq_str_true in E. contradiction.
Qed.
End Python.

Section Route.
Context `{B : Backend}.

Lemma dispatch_other_type (em : gmap string json) (t : json) (c : client) :
  em !! "type" = Some t ->
  t <> JStr APPLICATION_AUTHORIZED ->
  t <> JStr ENTITLEMENT_CREATE ->
  Client._dispatch_webhook_event (JObj em) c = (inr tt, c).
Proof.
  intros Ht Ha He.
  unfold APPLICATION_AUTHORIZED, ENTITLEMENT_CREATE in *.
  unfold Client._dispatch_webhook_event, bind, eval, py_getitem.
  rewrite Ht. simpl.
  rewrite (py_eq_str_false _ _ Ha), (py_eq_str_false _ _ He).
  reflexivity.
Qed.

(** C4. A body whose [type] equals 0 is answered with 204, and the client
    is left exactly as it was: no notification is dispatched and the
    connection state is not touched. *)
Theorem route_ping (m : gmap string json) (v : json) (c : client) :
  m !! "type" = Some v ->
  py_eq_int v 0 = true ->
  Client.__route (JObj m) c = (inr (Response_status 204), c) /\
  http_status (fst (Client.__route (JObj m) c)) = 204.
Proof.
  intros Hm Hv.
  assert (Client.__route (JObj m) c = (inr (Response_status 204), c)) as E.
  { unfold Client.__route, bind, eval, py_get. rewrite Hm. simpl.
    rewrite Hv. reflexivity. }
  rewrite E. split; reflexivity.
Qed.

(** C5, as amended. A body that is a JSON object whose [type] (null when
    the key is absent) is not the number 0, not the number 1 and not a
    boolean is answered with 400, and the client is left as it was: no
    notification, no change of the connection state. *)
Theorem route_unrecognized_type (m : gmap string json) (c : client) :
  json_number_is (type_field (JObj m)) 0 = false ->
  json_number_is (type_field (JObj m)) 1 = false ->
  is_JBool (type_field (JObj m)) = false ->
  Client.__route (JObj m) c = (inr (Response_status 400), c) /\
  http_status (fst (Client.__route (JObj m) c)) = 400.
Proof.
  simpl type_field. intros H0 H1 Hb.
  assert (Client.__route (JObj m) c = (inr (Response_status 400), c)) as E.
  { unfold Client.__route, bind, eval, py_get. simpl.
    rewrite !(py_eq_int_number _ _ Hb), H0, H1. reflexivity. }
  rewrite E. split; reflexivity.
Qed.

(** C6. An event whose [type] is neither "APPLICATION_AUTHORIZED" nor
    "ENTITLEMENT_CREATE" makes the dispatcher return normally with the
    client unchanged, and the route that received it in a [type == 1]
    envelope answers 204, again with the client unchanged. *)
Theorem dispatch_unhandled_type_noop
    (m em : gmap string json) (v t : json) (c : client) :
  em !! "type" = Some t ->
  t <> JStr APPLICATION_AUTHORIZED ->
  t <> JStr ENTITLEMENT_CREATE ->
  m !! "type" = Some v ->
  py_eq_int v 1 = true ->
  m !! "event" = Some (JObj em) ->
  Client._dispatch_webhook_event (JObj em) c = (inr tt, c) /\
  Client.__route (JObj m) c = (inr (Response_status 204), c).
Proof.
  intros Ht Ha He Hv H1 Hev.
  pose proof (dispatch_other_type em t c Ht Ha He) as E.
  split; [exact E|].
  unfold Client.__route, bind, eval, py_get, py_getitem.
  rewrite Hv. simpl. rewrite (py_eq_int_1_not_0 _ H1), H1, Hev. simpl.
  rewrite E. reflexivity.
Qed.
End Route.

Section Dispatcher.
Context `{B : Backend}.

(** The authorization branch, once the guild lookup has given [None]. *)
Lemma dispatch_authorized_no_guild
    (em dm : gmap string json) (ud scopes : json) (user : User) (c : client) :
  em !! "type" = Some (JStr APPLICATION_AUTHORIZED) ->
  em !! "data" = Some (JObj dm) ->
  py_is_None (default JNull (dm !! "guild")) = true ->
  dm !! "user" = Some ud ->
  User_new ud = inr user ->
  dm !! "scopes" = Some scopes ->
  Client._dispatch_webhook_event (JObj em) c
    = (inr tt,
       mkClient (_connection c)
         (dispatched c ++ [("user_install", [ArgUser user; ArgJson scopes])])).
Proof.
  intros Ht Hd Hg Hu Hn Hs.
  unfold Client._dispatch_webhook_event, bind, eval, py_getitem, py_get.
  rewrite Ht. simpl. rewrite Hd. simpl. rewrite Hu. simpl.
  rewrite Hn. simpl. rewrite Hg, Hs. reflexivity.
Qed.

(** C1. An authorization event whose data holds no guild (the [guild] key
    is absent, or holds null), a [user] payload the library accepts and a
    [scopes] value: the dispatcher returns normally, the connection state is
    untouched, and the notifications sent are the earlier ones followed by
    exactly one "user_install" with the parsed user and then the scopes. *)
Theorem dispatch_user_install
    (em dm : gmap string json) (ud scopes : json) (user : User) (c : client) :
  em !! "type" = Some (JStr APPLICATION_AUTHORIZED) ->
  em !! "data" = Some (JObj dm) ->
  dm !! "guild" = None \/ dm !! "guild" = Some JNull ->
  dm !! "user" = Some ud ->
  User_new ud = inr user ->
  dm !! "scopes" = Some scopes ->
  Client._dispatch_webhook_event (JObj em) c
    = (inr tt,
       mkClient (_connection c)
         (dispatched c ++ [("user_install", [ArgUser user; ArgJson scopes])])).
Proof.
  intros Ht Hd Hg Hu Hn Hs.
  apply (dispatch_authorized_no_guild em dm ud scopes user c); try assumption.
  destruct Hg as [-> | ->]; reflexivity.
Qed.



(** The entitlement branch hands [event['data']] to the connection state
    and does nothing else. *)
Lemma dispatch_entitlement_forwards (em : gmap string json) (d : json) (c : client) :
  em !! "type" = Some (JStr ENTITLEMENT_CREATE) ->
  em !! "data" = Some d ->
  Client._dispatch_webhook_event (JObj em) c
    = connection_parse_entitlement_create d c.
Proof.
  intros Ht Hd.
  unfold Client._dispatch_webhook_event, bind, eval, py_getitem.
  rewrite Ht. simpl. rewrite Hd. simpl.
  destruct (connection_parse_entitlement_create d c) as [[e | []] c']; reflexivity.
Qed.

(** C10. A [guild] key holding [null] is handled as the same payload with
    the key removed, whatever else the payload holds; with a [user] the
    library accepts and [scopes], the outcome is one "user_install"
    notification. *)
Theorem dispatch_null_guild
    (em dm : gmap string json) (c : client) :
  em !! "type" = Some (JStr APPLICATION_AUTHORIZED) ->
  em !! "data" = Some (JObj dm) ->
  dm !! "guild" = Some JNull ->
  Client._dispatch_webhook_event (JObj em) c
    = Client._dispatch_webhook_event
        (JObj (<["data" := JObj (delete "guild" dm)]> em)) c /\
  forall ud scopes user,
    dm !! "user" = Some ud ->
    User_new ud = inr user ->
    dm !! "scopes" = Some scopes ->
    Client._dispatch_webhook_event (JObj em) c
      = (inr tt,
         mkClient (_connection c)
           (dispatched c ++ [("user_install", [ArgUser user; ArgJson scopes])])).
Proof.
  intros Ht Hd Hg. split.
  - unfold Client._dispatch_webhook_event, bind, eval, py_getitem, py_get.
    rewrite lookup_insert_ne by discriminate.
    rewrite Ht. simpl. rewrite Hd, lookup_insert_eq. simpl.
    rewrite Hg, lookup_delete_eq. simpl.
    rewrite !lookup_delete_ne by discriminate. reflexivity.
  - intros ud scopes user Hu Hn Hs.
    apply (dispatch_authorized_no_guild em dm ud scopes user c); try assumption.
    rewrite Hg. reflexivity.
Qed.
End Dispatcher.

Section Errors.
Context `{B : Backend}.

(** C8. A [type == 1] envelope that lacks a nested field the handler
    subscripts makes the route raise [KeyError] for that key; nothing
    catches it, so the server answers 500, which is no 4xx, and no
    notification has been sent. *)
Theorem route_missing_field
    (m : gmap string json) (v : json) (key : string) (c : client) :
  m !! "type" = Some v ->
  py_eq_int v 1 = true ->
  lacks_field (_connection c) m key ->
  fst (Client.__route (JObj m) c) = inl (KeyError key) /\
  dispatched (snd (Client.__route (JObj m) c)) = dispatched c /\
  http_status (fst (Client.__route (JObj m) c)) = 500 /\
  is_4xx (http_status (fst (Client.__route (JObj m) c))) = false.
Proof.
  intros Hv H1 Hl.
  assert (fst (Client.__route (JObj m) c) = inl (KeyError key) /\
          dispatched (snd (Client.__route (JObj m) c)) = dispatched c) as [E D].
  { unfold Client.__route, Client._dispatch_webhook_event, bind, eval,
      py_get, py_getitem, on_connection.
    rewrite Hv. simpl. rewrite (py_eq_int_1_not_0 _ H1), H1.
    unfold APPLICATION_AUTHORIZED, ENTITLEMENT_CREATE in *.
    destruct Hl as [He | em He Ht | em t He Ht Hk Hd | em dm He Ht Hd Hu
                   | em dm ud u He Ht Hd Hu Hn Hg Hs].
    - rewrite He. split; reflexivity.
    - rewrite He. simpl. rewrite Ht. split; reflexivity.
    - rewrite He. simpl. rewrite Ht. simpl.
      destruct Hk as [-> | ->]; simpl; rewrite Hd; split; reflexivity.
    - rewrite He. simpl. rewrite Ht. simpl. rewrite Hd. simpl. rewrite Hu.
      split; reflexivity.
    - rewrite He. simpl. rewrite Ht. simpl. rewrite Hd. simpl. rewrite Hu.
      simpl. rewrite Hn. simpl.
      destruct (py_is_None (default JNull (dm !! "guild"))) eqn:Hnone.
      + rewrite Hs. split; reflexivity.
      + destruct Hg as [Hg | (g & st' & Hg)]; [discriminate|].
        rewrite Hg. simpl. rewrite Hs. split; reflexivity. }
  rewrite E. repeat split; assumption || reflexivity.
Qed.
End Errors.

Section Classes.
Context `{B : Backend}.

(** C9. The four public classes run the same webhook code: on every body
    and every client their routes give the same outcome (response or
    exception, hence the same HTTP status) and the same client, on every
    event their dispatchers send the same notifications, and the optional
    interactions route agrees as well. Whatever differs between them comes
    with the base class [B]. *)
Theorem classes_agree (data : json) (c : client) :
  (AutoShardedClient.__route data c = Client.__route data c /\
   Bot.__route data c = Client.__route data c /\
   AutoShardedBot.__route data c = Client.__route data c) /\
  (AutoShardedClient._dispatch_webhook_event data c
     = Client._dispatch_webhook_event data c /\
   Bot._dispatch_webhook_event data c
     = Client._dispatch_webhook_event data c /\
   AutoShardedBot._dispatch_webhook_event data c
     = Client._dispatch_webhook_event data c) /\
  (AutoShardedClient.__interactions_route data c
     = Client.__interactions_route data c /\
   Bot.__interactions_route data c
     = Client.__interactions_route data c /\
   AutoShardedBot.__interactions_route data c
     = Client.__interactions_route data c).
Proof. repeat split; reflexivity. Qed.
End Classes.

(** ** The reference connection state keeps the cache promises *)

#[export] Instance reference_caches : BackendCaches Reference.backend.
Proof.
  split.
  - intros gd st g st'. simpl. unfold Reference.get_create_guild, Reference.lookup_guild.
    destruct (Reference.payload_id gd) as [e | z]; [discriminate|].
    destruct (Reference.guilds st !! z) as [d' |] eqn:Hz.
    + intros [= <- <-]. simpl. rewrite Hz. reflexivity.
    + intros [= <- <-]. simpl. rewrite lookup_insert_eq. reflexivity.
  - intros d st ns st'. simpl. unfold Reference.parse_entitlement, Reference.lookup_entitlement.
    destruct (Reference.payload_id d) as [e | z]; [discriminate|].
    intros [= <- <-]. eexists. split; [reflexivity|].
    simpl. rewrite lookup_insert_eq. reflexivity.
Qed.

(** ** The properties on sample deliveries *)

Lemma route_ping_sample :
  Client.__route (JObj Samples.ping) Reference.empty
    = (inr (Response_status 204), Reference.empty) /\
  http_status (fst (Client.__route (JObj Samples.ping) Reference.empty)) = 204.
Proof.
  apply (route_ping (B := Reference.backend) Samples.ping (JInt 0) Reference.empty);
    reflexivity.
Defined.

Lemma route_unrecognized_type_sample :
  Client.__route (JObj Samples.odd_type) Reference.empty
    = (inr (Response_status 400), Reference.empty) /\
  http_status (fst (Client.__route (JObj Samples.odd_type) Reference.empty)) = 400.
Proof.
  apply (route_unrecognized_type (B := Reference.backend) Samples.odd_type
           Reference.empty); reflexivity.
Defined.

(** C5 as the spec words it fails. JSON's [false] is neither the number 0
    nor the number 1, yet [False == 0] holds in Python and the body
    [{"type": false}] is answered as a ping, with 204; [{"type": true}] takes
    the event branch and fails there; a body that is no object fails at
    [data.get]. *)
Lemma route_false_type_is_ping :
  http_status (fst (Client.__route (JObj Samples.false_type) Reference.empty)) = 204 /\
  http_status (fst (Client.__route (JObj {[ "type" := JBool true ]}) Reference.empty))
    = 500 /\
  http_status (fst (Client.__route (JList []) Reference.empty)) = 500 /\
  ~ (forall (B : Backend) (data : json) (c : client),
       json_number_is (type_field data) 0 = false ->
       json_number_is (type_field data) 1 = false ->
       http_status (fst (Client.__route data c)) = 400).
Proof.
  repeat split; try reflexivity.
  intros H.
  specialize (H Reference.backend (JObj Samples.false_type) Reference.empty
                eq_refl eq_refl).
  vm_compute in H. discriminate.
Qed.

Lemma dispatch_unhandled_type_noop_sample :
  Client._dispatch_webhook_event (JObj Samples.quest) Reference.empty
    = (inr tt, Reference.empty) /\
  Client.__route (JObj (Samples.envelope Samples.quest)) Reference.empty
    = (inr (Response_status 204), Reference.empty).
Proof.
  apply (dispatch_unhandled_type_noop (B := Reference.backend)
           (Samples.envelope Samples.quest) Samples.quest (JInt 1)
           (JStr QUEST_USER_ENROLLMENT) Reference.empty);
    (reflexivity || discriminate).
Defined.

Lemma dispatch_user_install_sample :
  Client._dispatch_webhook_event (JObj (Samples.authorized Samples.user_data))
      Reference.empty
    = (inr tt,
       mkClient (B := Reference.backend) (Reference.mkCache ∅ ∅)
         [("user_install", [ArgUser Samples.parsed_user; ArgJson Samples.scopes])]).
Proof.
  apply (dispatch_user_install (B := Reference.backend)
           (Samples.authorized Samples.user_data) Samples.user_data
           Samples.user Samples.scopes Samples.parsed_user Reference.empty);
    try reflexivity.
  left. reflexivity.
Defined.


Lemma route_missing_field_sample :
  fst (Client.__route (JObj Samples.no_event) Reference.empty)
    = inl (KeyError "event") /\
  dispatched (snd (Client.__route (JObj Samples.no_event) Reference.empty)) = [] /\
  http_status (fst (Client.__route (JObj Samples.no_event) Reference.empty)) = 500 /\
  is_4xx (http_status (fst (Client.__route (JObj Samples.no_event) Reference.empty)))
    = false.
Proof.
  apply (route_missing_field (B := Reference.backend) Samples.no_event (JInt 1)
           "event" Reference.empty);
    [reflexivity | reflexivity | apply lacks_event; reflexivity].
Defined.

Lemma dispatch_null_guild_sample :
  Client._dispatch_webhook_event
      (JObj (Samples.authorized Samples.null_guild_data)) Reference.empty
    = Client._dispatch_webhook_event
        (JObj (<["data" := JObj (delete "guild" Samples.null_guild_data)]>
                 (Samples.authorized Samples.null_guild_data)))
        Reference.empty /\
  forall ud scopes user,
    Samples.null_guild_data !! "user" = Some ud ->
    Reference.new_object ud = inr user ->
    Samples.null_guild_data !! "scopes" = Some scopes ->
    Client._dispatch_webhook_event
        (JObj (Samples.authorized Samples.null_guild_data)) Reference.empty
      = (inr tt,
         mkClient (B := Reference.backend) (Reference.mkCache ∅ ∅)
           [("user_install", [ArgUser user; ArgJson scopes])]).
Proof.
  apply (dispatch_null_guild (B := Reference.backend)
           (Samples.authorized Samples.null_guild_data) Samples.null_guild_data
           Reference.empty);
    reflexivity.
Defined.

(** Runs of the sample deliveries, end to end through the route. *)
Example route_user_install_run :
  Client.__route (JObj (Samples.envelope (Samples.authorized Samples.user_data)))
      Reference.empty
    = (inr (Response_status 204),
       mkClient (B := Reference.backend) (Reference.mkCache ∅ ∅)
         [("user_install", [ArgUser Samples.parsed_user; ArgJson Samples.scopes])]).
Proof. reflexivity. Qed.

Example route_null_guild_run :
  Client.__route
      (JObj (Samples.envelope (Samples.authorized Samples.null_guild_data)))
      Reference.empty
    = (inr (Response_status 204),
       mkClient (B := Reference.backend) (Reference.mkCache ∅ ∅)
         [("user_install", [ArgUser Samples.parsed_user; ArgJson Samples.scopes])]).
Proof. reflexivity. Qed.

Example route_missing_user_run :
  Client.__route
      (JObj (Samples.envelope (Samples.authorized {[ "scopes" := Samples.scopes ]})))
      Reference.empty
    = (inl (KeyError "user"), Reference.empty).
Proof. reflexivity. Qed.

(** A body that is not an object has no [get]: the route raises before it
    looks at any type. *)
Example route_list_body_run :
  Client.__route (JList []) Reference.empty
    = (inl (AttributeError "get"), Reference.empty).
Proof. reflexivity. Qed.

(** [True == 1]: a boolean [true] takes the event branch. *)
Example route_true_type_run :
  Client.__route (JObj {[ "type" := JBool true ]}) Reference.empty
    = (inl (KeyError "event"), Reference.empty).
Proof. reflexivity. Qed.

(** The float 1.0 takes the event branch as the integer 1 does. *)
Example route_float_type_run :
  Client.__route
      (JObj {[ "type" := JFloat (S754_finite false 4503599627370496 (-52));
               "event" := JObj Samples.quest ]})
      Reference.empty
    = (inr (Response_status 204), Reference.empty).
Proof. reflexivity. Qed.

(** ** Closing *)

Section Close.
Import Closing.
Variable a : attrs.

Lemma performed_app (l1 l2 : list (guard * action)) :
  performed a (l1 ++ l2) = (performed a l1 ++ performed a l2).
Proof.
  induction l1 as [| [g act] l1 IH]; simpl; [reflexivity|].
  destruct (holds a g); simpl; rewrite IH; reflexivity.
Qed.

Lemma inv_init (n : nat) : inv a (init n).
Proof.
  unfold inv, init. simpl. repeat split.
  apply Forall_replicate. reflexivity.
Qed.

Lemma inv_step (ch : choice) (s s' : sys) :
  inv a s -> step a ch s = Some s' -> inv a s'.
Proof.
  unfold inv, step. intros Hinv Hstep.
  destruct ch as [i | t].
  - destruct (callers s !! i) as [[| t |] |] eqn:Hi; try discriminate.
    + destruct (_closing_task s) as [t |].
      * destruct Hinv as (-> & done & rest & Hsplit & Htasks & Hlog & Hall).
        injection Hstep as <-. simpl. split; [reflexivity|].
        exists done, rest. repeat split; try assumption.
        apply Forall_insert; [assumption | reflexivity].
      * destruct Hinv as (Htasks & Hlog & Hall).
        injection Hstep as <-. simpl. rewrite Htasks. simpl.
        split; [reflexivity|].
        exists [], _close. repeat split; try assumption.
        apply Forall_insert; [|reflexivity].
        eapply Forall_impl; [exact Hall|]. intros c ->. exact I.
    + destruct (tasks s !! t) as [[| stmt rest'] |] eqn:Ht; try discriminate.
      injection Hstep as <-. simpl.
      destruct (_closing_task s) as [t0 |].
      * destruct Hinv as (-> & done & rest & Hsplit & Htasks & Hlog & Hall).
        split; [reflexivity|].
        exists done, rest. repeat split; try assumption.
        apply Forall_insert; [assumption|].
        rewrite Htasks in Ht. destruct t as [| t]; simpl in Ht.
        -- injection Ht as ->. reflexivity.
        -- discriminate.
      * destruct Hinv as (Htasks & _). rewrite Htasks in Ht. discriminate.
  - destruct (tasks s !! t) as [[| [g act] rest'] |] eqn:Ht; try discriminate.
    injection Hstep as <-. simpl.
    destruct (_closing_task s) as [t0 |].
    + destruct Hinv as (-> & done & rest & Hsplit & Htasks & Hlog & Hall).
      split; [reflexivity|].
      rewrite Htasks in Ht. destruct t as [| t]; simpl in Ht; [|discriminate].
      injection Ht as ->.
      exists (done ++ [(g, act)]), rest'. repeat split.
      * rewrite <- app_assoc. exact Hsplit.
      * rewrite Htasks. reflexivity.
      * rewrite performed_app, Hlog. simpl.
        destruct (holds a g); simpl.
        -- rewrite fmap_app. reflexivity.
        -- rewrite app_nil_r. reflexivity.
      * eapply Forall_impl; [exact Hall|].
        intros [| t |]; simpl; try tauto. discriminate.
    + destruct Hinv as (Htasks & _). rewrite Htasks in Ht. discriminate.
Qed.

Lemma inv_run (sched : list choice) (s s' : sys) :
  inv a s -> run a sched s = Some s' -> inv a s'.
Proof.
  revert s. induction sched as [| ch sched IH]; simpl; intros s Hinv Hrun.
  - injection Hrun as <-. exact Hinv.
  - destruct (step a ch s) as [s1 |] eqn:Hstep; [|discriminate].
    eapply IH; [|exact Hrun]. eapply inv_step; eassumption.
Qed.
End Close.

Section CloseOnce.
Import Closing.
Variable a : attrs.

(** A round in which the calls [k], [k+1], ... each take the same kind of
    turn, one that changes nothing but their own standing. *)
Lemma run_callers (ct : option nat) (ts : list (list (guard * action)))
    (lg : list (nat * action)) (before after : caller) :
  (forall i cs,
      cs !! i = Some before ->
      step a (RunCaller i) (mkSys ct ts lg cs)
        = Some (mkSys ct ts lg (<[i := after]> cs))) ->
  forall m k,
    run a (RunCaller <$> seq k m)
        (mkSys ct ts lg (replicate k after ++ replicate m before))
      = Some (mkSys ct ts lg (replicate (k + m) after)).
Proof.
  intros Hturn. induction m as [| m IH]; intros k.
  - simpl. rewrite app_nil_r, Nat.add_0_r. reflexivity.
  - cbn [seq fmap list_fmap run].
    assert ((replicate k after ++ replicate (S m) before) !! k = Some before) as Hk.
    { rewrite lookup_app_r by (rewrite length_replicate; lia).
      rewrite length_replicate, Nat.sub_diag. reflexivity. }
    rewrite (Hturn _ _ Hk).
    assert (<[k := after]> (replicate k after ++ replicate (S m) before)
            = replicate (S k) after ++ replicate m before) as ->.
    { rewrite insert_app_r_alt by (rewrite length_replicate; lia).
      rewrite length_replicate, Nat.sub_diag. simpl.
      rewrite cons_middle, app_assoc, <- replicate_S_end. reflexivity. }
    rewrite (IH (S k)). replace (S k + m)%nat with (k + S m)%nat by lia. reflexivity.
Qed.


Lemma run_app (s1 s2 : list choice) (s : sys) :
  run a (s1 ++ s2) s = run a s1 s ≫= run a s2.
Proof.
  revert s. induction s1 as [| ch s1 IH]; intros s; simpl; [reflexivity|].
  destruct (step a ch s); [apply IH | reflexivity].
Qed.

(** With at least one call made, letting every call run, then the task,
    then every call again brings all of them back from [close], after one
    complete teardown. *)
Lemma close_completes (n : nat) :
  run a (fair_schedule (S n)) (init (S n)) = Some (closed a (S n)).
Proof.
  unfold fair_schedule, init, closed.
  rewrite run_app.
  assert (run a (RunCaller <$> seq 0 (S n)) (mkSys None [] [] (replicate (S n) Entered))
          = Some (mkSys (Some 0%nat) [_close] [] (replicate (S n) (Awaiting 0)))) as ->.
  { cbn [seq fmap list_fmap run].
    pose proof (run_callers (Some 0%nat) [_close] [] Entered (Awaiting 0)) as H.
    specialize (H ltac:(intros i cs Hi; unfold step; simpl; rewrite Hi; reflexivity)
                    n 1%nat).
    exact H. }
  cbn [mbind option_bind]. rewrite run_app.
  assert (run a (replicate (length _close) (RunTask 0))
            (mkSys (Some 0%nat) [_close] [] (replicate (S n) (Awaiting 0)))
          = Some (mkSys (Some 0%nat) [[]] (pair 0%nat <$> performed a _close)
                    (replicate (S n) (Awaiting 0)))) as ->.
  { destruct a as [[] [] []]; reflexivity. }
  cbn [mbind option_bind].
  pose proof (run_callers (Some 0%nat) [[]] (pair 0%nat <$> performed a _close)
                (Awaiting 0) Returned) as H.
  specialize (H ltac:(intros i cs Hi; unfold step; simpl; rewrite Hi; reflexivity)
                  (S n) 0%nat).
  exact H.
Qed.
End CloseOnce.

Section CloseProgress.
Import Closing.
Variable a : attrs.

Lemma potential_insert (cs : list caller) (i : nat) (c c' : caller) :
  cs !! i = Some c ->
  (sum_list_with potential (<[i := c']> cs) + potential c
   = sum_list_with potential cs + potential c')%nat.
Proof.
  revert i. induction cs as [| x cs IH]; intros [| i]; simpl; try discriminate.
  - intros [= ->]. lia.
  - intros Hi. specialize (IH i Hi). lia.
Qed.

Lemma returned_or_pending (cs : list caller) :
  Forall (fun c => c = Returned) cs \/
  exists i c, cs !! i = Some c /\ c <> Returned.
Proof.
  induction cs as [| x cs [IH | (i & c & Hi & Hc)]].
  - left. constructor.
  - destruct x as [| t |].
    + right. exists 0%nat, Entered. split; [reflexivity | discriminate].
    + right. exists 0%nat, (Awaiting t). split; [reflexivity | discriminate].
    + left. constructor; [reflexivity | exact IH].
  - right. exists (S i), c. split; assumption.
Qed.

(** While some call has not returned, the event loop has a turn to give,
    and it brings the end nearer. *)
Lemma close_progress (s : sys) :
  inv a s ->
  Forall (fun c => c = Returned) (callers s) \/
  exists ch s', step a ch s = Some s' /\ (work_left s' < work_left s)%nat.
Proof.
  intros Hinv.
  destruct (returned_or_pending (callers s)) as [Hall | (i & c & Hi & Hc)];
    [left; exact Hall | right].
  unfold inv in Hinv. unfold work_left.
  destruct c as [| t |]; [| | contradiction].
  - exists (RunCaller i). unfold step. rewrite Hi.
    destruct (_closing_task s) as [t0 |].
    + eexists. split; [reflexivity|]. simpl.
      pose proof (potential_insert (callers s) i Entered (Awaiting t0) Hi).
      simpl in *. lia.
    + destruct Hinv as (Htasks & _). rewrite Htasks.
      eexists. split; [reflexivity|]. simpl.
      pose proof (potential_insert (callers s) i Entered (Awaiting 0) Hi).
      simpl in *. lia.
  - destruct (_closing_task s) as [t0 |] eqn:Hct.
    + destruct Hinv as (-> & done & rest & Hsplit & Htasks & Hlog & Hall).
      pose proof (Forall_lookup_1 _ _ _ _ Hall Hi) as Ht. simpl in Ht. subst t.
      destruct rest as [| [g act] rest].
      * exists (RunCaller i). unfold step. rewrite Hi, Htasks. simpl.
        eexists. split; [reflexivity|]. simpl. rewrite Hct. simpl.
        pose proof (potential_insert (callers s) i (Awaiting 0) Returned Hi).
        simpl in *. lia.
      * exists (RunTask 0). unfold step. rewrite Htasks. simpl.
        eexists. split; [reflexivity|]. simpl. rewrite Hct. simpl. lia.
    + destruct Hinv as (_ & _ & Hall).
      pose proof (Forall_lookup_1 _ _ _ _ Hall Hi). discriminate.
Qed.

Lemma close_can_finish (k : nat) (s : sys) :
  (work_left s <= k)%nat ->
  inv a s ->
  exists sched s',
    run a sched s = Some s' /\ Forall (fun c => c = Returned) (callers s').
Proof.
  revert s. induction k as [| k IH]; intros s Hk Hinv.
  - destruct (close_progress s Hinv) as [Hall | (ch & s' & _ & Hlt)]; [|lia].
    exists [], s. split; [reflexivity | exact Hall].
  - destruct (close_progress s Hinv) as [Hall | (ch & s1 & Hstep & Hlt)].
    + exists [], s. split; [reflexivity | exact Hall].
    + destruct (IH s1) as (sched & s' & Hrun & Hall).
      * lia.
      * eapply inv_step; eassumption.
      * exists (ch :: sched), s'. split; [|exact Hall].
        simpl. rewrite Hstep. exact Hrun.
Qed.

Lemma step_callers_length (ch : choice) (s s' : sys) :
  step a ch s = Some s' -> length (callers s') = length (callers s).
Proof.
  unfold step. intros Hstep.
  destruct ch as [i | t].
  - destruct (callers s !! i) as [[| t |] |]; try discriminate.
    + destruct (_closing_task s); injection Hstep as <-; simpl;
        apply length_insert.
    + destruct (tasks s !! t) as [[| stmt rest] |]; try discriminate.
      injection Hstep as <-. simpl. apply length_insert.
  - destruct (tasks s !! t) as [[| [g act] rest] |]; try discriminate.
    injection Hstep as <-. reflexivity.
Qed.

Lemma run_callers_length (sched : list choice) (s s' : sys) :
  run a sched s = Some s' -> length (callers s') = length (callers s).
Proof.
  revert s. induction sched as [| ch sched IH]; simpl; intros s Hrun.
  - injection Hrun as <-. reflexivity.
  - destruct (step a ch s) as [s1 |] eqn:Hstep; [|discriminate].
    rewrite (IH s1 Hrun). eapply step_callers_length. exact Hstep.
Qed.

(** A state of the shape [inv] in which all of [n >= 1] calls have returned
    is the closed one. *)
Lemma all_returned_closed (n : nat) (s : sys) :
  (0 < n)%nat ->
  inv a s ->
  length (callers s) = n ->
  Forall (fun c => c = Returned) (callers s) ->
  s = closed a n.
Proof.
  intros Hn Hinv Hlen Hall. unfold inv in Hinv. unfold closed.
  destruct s as [ct ts lg cs]. simpl in *.
  assert (cs = replicate n Returned) as ->.
  { symmetry. apply replicate_as_Forall. split; [exact Hlen|].
    eapply Forall_impl; [exact Hall|]. intros c ->. reflexivity. }
  destruct n as [| n]; [lia|]. simpl in *.
  destruct ct as [t |].
  - destruct Hinv as (-> & done & rest & Hsplit & -> & -> & Hok).
    apply Forall_cons_1 in Hok as [Hrest _]. simpl in Hrest. subst rest.
    rewrite app_nil_r in Hsplit. subst done. reflexivity.
  - destruct Hinv as (_ & _ & Hent).
    apply Forall_cons_1 in Hent as [Hent _]. discriminate.
Qed.
End CloseProgress.

Section CloseClaim.
Import Closing.

(** C7. Whatever the event loop does with [n] calls of [close] on a client
    not closed before: at most one task is ever created; the teardown
    effects performed are an initial part of the one sequence of [_close],
    each by that task; a call that is suspended awaits that task; a call
    has returned only when the task has nothing left and the whole
    sequence has been performed once; a call that starts when the task
    exists goes straight to awaiting it, creating nothing and performing
    nothing; and with at least one call, the event loop can always go on
    to the state in which every call has returned after the one complete
    teardown. *)
Theorem close_idempotent (a : attrs) (n : nat) (sched : list choice) (s : sys) :
  run a sched (init n) = Some s ->
  (length (tasks s) <= 1)%nat /\
  (exists done rest,
      done ++ rest = _close /\ log s = pair 0%nat <$> performed a done) /\
  (forall i t,
      callers s !! i = Some (Awaiting t) ->
      _closing_task s = Some t /\ length (tasks s) = 1%nat /\ t = 0%nat) /\
  (forall i,
      callers s !! i = Some Returned ->
      tasks s = [[]] /\ log s = pair 0%nat <$> performed a _close) /\
  (forall i,
      callers s !! i = Some Entered ->
      is_Some (_closing_task s) ->
      step a (RunCaller i) s
        = Some (mkSys (_closing_task s) (tasks s) (log s)
                  (<[i := Awaiting 0]> (callers s)))) /\
  ((0 < n)%nat -> exists sched', run a sched' s = Some (closed a n)).
Proof.
  intros Hrun.
  pose proof (inv_run a sched (init n) s (inv_init a n) Hrun) as Hinv.
  assert ((0 < n)%nat -> exists sched', run a sched' s = Some (closed a n)) as Hlive.
  { intros Hn.
    destruct (close_can_finish a (work_left s) s (Nat.le_refl _) Hinv)
      as (sched' & s' & Hrun' & Hall).
    exists sched'. rewrite Hrun'. f_equal.
    apply all_returned_closed; try assumption.
    - eapply inv_run; eassumption.
    - rewrite (run_callers_length a _ _ _ Hrun'), (run_callers_length a _ _ _ Hrun).
      apply length_replicate. }
  unfold inv in Hinv.
  destruct (_closing_task s) as [t0 |] eqn:Hct.
  - destruct Hinv as (-> & done & rest & Hsplit & Htasks & Hlog & Hall).
    repeat split.
    + rewrite Htasks. simpl. lia.
    + exists done, rest. split; assumption.
    + pose proof (Forall_lookup_1 _ _ _ _ Hall H) as Hc. simpl in Hc.
      rewrite Hc. reflexivity.
    + rewrite Htasks. reflexivity.
    + exact (Forall_lookup_1 _ _ _ _ Hall H).
    + pose proof (Forall_lookup_1 _ _ _ _ Hall H) as Hc. simpl in Hc.
      rewrite Htasks, Hc. reflexivity.
    + pose proof (Forall_lookup_1 _ _ _ _ Hall H) as Hc. simpl in Hc.
      subst rest. rewrite app_nil_r in Hsplit. rewrite Hlog, Hsplit. reflexivity.
    + intros i Hi _. unfold step. rewrite Hi, Hct. reflexivity.
    + exact Hlive.
  - destruct Hinv as (Htasks & Hlog & Hall).
    repeat split.
    + rewrite Htasks. simpl. lia.
    + exists [], _close. split; [reflexivity | exact Hlog].
    + pose proof (Forall_lookup_1 _ _ _ _ Hall H). discriminate.
    + pose proof (Forall_lookup_1 _ _ _ _ Hall H). discriminate.
    + pose proof (Forall_lookup_1 _ _ _ _ Hall H). discriminate.
    + pose proof (Forall_lookup_1 _ _ _ _ Hall H). discriminate.
    + pose proof (Forall_lookup_1 _ _ _ _ Hall H). discriminate.
    + intros i _ [x Hx]. discriminate.
    + exact Hlive.
Qed.
End CloseClaim.

(** Two concurrent calls: the second arrives while the teardown is under way,
    the first returns, the second returns; one teardown has run. *)
Example close_second_call_mid_teardown_run :
  Closing.run Samples.live_client Samples.second_call_mid_teardown (Closing.init 2)
    = Some (Closing.mkSys (Some 0%nat) [[]]
              [ (0%nat, Closing.ConnectionClose); (0%nat, Closing.WsClose 1000);
                (0%nat, Closing.ReadyClear); (0%nat, Closing.SiteStop);
                (0%nat, Closing.HttpClose); (0%nat, Closing.LoopMissing) ]
              [Closing.Returned; Closing.Returned]).
Proof. reflexivity. Qed.

(** A call cannot return while the task has statements left. *)
Example close_cannot_return_early :
  Closing.run Samples.live_client
      [Closing.RunCaller 0; Closing.RunTask 0; Closing.RunCaller 0] (Closing.init 2)
    = None.
Proof. reflexivity. Qed.

Lemma close_idempotent_sample :
  let s := Closing.closed Samples.live_client 2 in
  (length (Closing.tasks s) <= 1)%nat /\
  (exists done rest,
      done ++ rest = Closing._close /\
      Closing.log s = pair 0%nat <$> Closing.performed Samples.live_client done) /\
  (forall i t,
      Closing.callers s !! i = Some (Closing.Awaiting t) ->
      Closing._closing_task s = Some t /\ length (Closing.tasks s) = 1%nat /\ t = 0%nat) /\
  (forall i,
      Closing.callers s !! i = Some Closing.Returned ->
      Closing.tasks s = [[]] /\
      Closing.log s = pair 0%nat <$> Closing.performed Samples.live_client Closing._close) /\
  (forall i,
      Closing.callers s !! i = Some Closing.Entered ->
      is_Some (Closing._closing_task s) ->
      Closing.step Samples.live_client (Closing.RunCaller i) s
        = Some (Closing.mkSys (Closing._closing_task s) (Closing.tasks s)
                  (Closing.log s)
                  (<[i := Closing.Awaiting 0]> (Closing.callers s)))) /\
  ((0 < 2)%nat ->
   exists sched', Closing.run Samples.live_client sched' s
     = Some (Closing.closed Samples.live_client 2)).
Proof.
  apply (close_idempotent Samples.live_client 2 Samples.second_call_mid_teardown
           (Closing.closed Samples.live_client 2)).
  reflexivity.
Defined.

(** ** More on the route *)

Section RouteOutcome.
Context `{B : Backend}.

Lemma route_event_branch (m : gmap string json) (v ev : json) (c : client) :
  m !! "type" = Some v ->
  py_eq_int v 1 = true ->
  m !! "event" = Some ev ->
  Client.__route (JObj m) c = answered_204 (Client._dispatch_webhook_event ev c).
Proof.
  intros Hv H1 Hev.
  unfold Client.__route, bind, eval, py_get, py_getitem, answered_204.
  rewrite Hv. simpl. rewrite (py_eq_int_1_not_0 _ H1), H1, Hev. simpl.
  destruct (Client._dispatch_webhook_event ev c) as [[e | u] c']; reflexivity.
Qed.

(** X1. A [type == 1] envelope with an [event]: the route's outcome is the
    dispatcher's on that event, with 204 put on a normal return; an
    exception of the dispatcher leaves the route as it is, and the client is
    in both cases as the dispatcher left it. *)
Theorem route_event_outcome (m : gmap string json) (v ev : json) (c : client) :
  m !! "type" = Some v ->
  py_eq_int v 1 = true ->
  m !! "event" = Some ev ->
  Client.__route (JObj m) c = answered_204 (Client._dispatch_webhook_event ev c).
Proof.
  intros Hv H1 Hev.
  assert (py_eq_int v 0 = false) as H0.
  { destruct (py_eq_int v 0) eqn:E; [|reflexivity].
    pose proof (py_eq_int_inj _ _ _ H1 E). discriminate. }
  unfold Client.__route, bind, eval, py_get, py_getitem, answered_204.
  rewrite Hv. simpl. rewrite H0, H1, Hev. simpl.
  destruct (Client._dispatch_webhook_event ev c) as [[e | u] c']; reflexivity.
Qed.

(** X2. The route reads [type] and [event] and nothing else: two bodies that
    agree on these two keys get the same answer and leave the same client,
    whatever [version], [application_id] or other keys they carry. *)
Theorem route_reads_type_and_event (m m' : gmap string json) (c : client) :
  m !! "type" = m' !! "type" ->
  m !! "event" = m' !! "event" ->
  Client.__route (JObj m) c = Client.__route (JObj m') c.
Proof.
  intros Ht He.
  unfold Client.__route, bind, eval, py_get, py_getitem.
  rewrite Ht, He. reflexivity.
Qed.

(** X3. Of an authorization event the dispatcher reads the [data], and of the
    data the keys [guild], [user] and [scopes]: two such events whose data
    agree on the three keys have the same outcome. *)
Theorem dispatch_authorized_reads_three_keys
    (em em' dm dm' : gmap string json) (c : client) :
  em !! "type" = Some (JStr APPLICATION_AUTHORIZED) ->
  em' !! "type" = Some (JStr APPLICATION_AUTHORIZED) ->
  em !! "data" = Some (JObj dm) ->
  em' !! "data" = Some (JObj dm') ->
  dm !! "guild" = dm' !! "guild" ->
  dm !! "user" = dm' !! "user" ->
  dm !! "scopes" = dm' !! "scopes" ->
  Client._dispatch_webhook_event (JObj em) c
    = Client._dispatch_webhook_event (JObj em') c.
Proof.
  intros Ht Ht' Hd Hd' Hg Hu Hs.
  unfold Client._dispatch_webhook_event, bind, eval, py_get, py_getitem.
  rewrite Ht, Ht'. simpl. rewrite Hd, Hd'. simpl.
  rewrite Hg, Hu, Hs. reflexivity.
Qed.

(** X4. Whenever the route returns a response, on any body and any client, it is
    [Response(status=204)] or [Response(status=400)], and a 400 comes with
    the client untouched. *)
Theorem route_response_status (data : json) (c c' : client) (r : Response) :
  Client.__route data c = (inr r, c') ->
  r = Response_status 204 \/ (r = Response_status 400 /\ c' = c).
Proof.
  unfold Client.__route, bind, eval.
  destruct (py_get data "type") as [e | v]; simpl; [discriminate|].
  destruct (py_eq_int v 0).
  - intros [= <- <-]. left. reflexivity.
  - destruct (py_eq_int v 1).
    + destruct (py_getitem data "event") as [e | ev]; simpl; [discriminate|].
      destruct (Client._dispatch_webhook_event ev c) as [[e | u] c1];
        [discriminate|].
      intros [= <- <-]. left. reflexivity.
    + intros [= <- <-]. right. split; reflexivity.
Qed.

(** X5. A body that is valid JSON but no object (a list, a string, a number,
    [null]) makes both routes raise [AttributeError] at [data.get], before
    anything is dispatched or parsed. *)
Theorem route_body_not_object (data : json) (c : client) :
  is_JObj data = false ->
  Client.__route data c = (inl (AttributeError "get"), c) /\
  Client.__interactions_route data c = (inl (AttributeError "get"), c).
Proof.
  intros Hd.
  unfold Client.__route, Client.__interactions_route, bind, eval, py_get.
  destruct data; try discriminate; split; reflexivity.
Qed.

(** X6. A [type == 1] envelope whose [event] is no object makes the route raise
    [TypeError] at [event['type']], with the client untouched. *)
Theorem route_event_not_object (m : gmap string json) (v ev : json) (c : client) :
  m !! "type" = Some v ->
  py_eq_int v 1 = true ->
  m !! "event" = Some ev ->
  is_JObj ev = false ->
  Client.__route (JObj m) c = (inl TypeError, c).
Proof.
  intros Hv H1 Hev Ho.
  rewrite (route_event_branch m v ev c Hv H1 Hev).
  unfold Client._dispatch_webhook_event, bind, eval, py_getitem.
  destruct ev; try discriminate; reflexivity.
Qed.

(** X7. An authorization event whose [data] is present but no object: the
    first thing done with it is [data.get('guild')], which only a [dict]
    has, so the dispatcher raises [AttributeError] there and the client is
    untouched. *)
Theorem dispatch_authorized_data_not_object
    (em : gmap string json) (d : json) (c : client) :
  em !! "type" = Some (JStr APPLICATION_AUTHORIZED) ->
  em !! "data" = Some d ->
  is_JObj d = false ->
  Client._dispatch_webhook_event (JObj em) c = (inl (AttributeError "get"), c).
Proof.
  intros Ht Hd Ho.
  unfold Client._dispatch_webhook_event, bind, eval, py_getitem, py_get.
  rewrite Ht. simpl. rewrite Hd. simpl.
  destruct d; try discriminate; reflexivity.
Qed.
End RouteOutcome.

(** ** More on the dispatcher *)

Section Authorization.
Context `{B : Backend}.

(** X9. An authorization event notifies exactly when the dispatcher
    returns: if it raises, at whatever point, nothing has been sent; if it
    returns, exactly one notification has been added, "user_install" with
    two arguments or "guild_install" with three. *)
Theorem authorized_notifies_iff_returns (em : gmap string json) (c : client) :
  em !! "type" = Some (JStr APPLICATION_AUTHORIZED) ->
  match Client._dispatch_webhook_event (JObj em) c with
  | (inl _, c') => dispatched c' = dispatched c
  | (inr _, c') =>
      exists name args,
        dispatched c' = dispatched c ++ [(name, args)] /\
        ((name = "user_install" /\ length args = 2%nat) \/
         (name = "guild_install" /\ length args = 3%nat))
  end.
Proof.
  intros Ht.
  unfold Client._dispatch_webhook_event, bind, eval, py_getitem, py_get,
    on_connection, dispatch.
  rewrite Ht. simpl.
  destruct (em !! "data") as [d |]; simpl; [|reflexivity].
  destruct d as [| | | | | | dm]; simpl; try reflexivity.
  destruct (dm !! "user") as [ud |]; simpl; [|reflexivity].
  destruct (User_new ud) as [e | user]; simpl; [reflexivity|].
  destruct (py_is_None (default JNull (dm !! "guild"))).
  - destruct (dm !! "scopes") as [sc |]; simpl; [|reflexivity].
    eexists _, _. split; [reflexivity|]. left. split; reflexivity.
  - destruct (_get_create_guild (default JNull (dm !! "guild")) (_connection c))
      as [[e | g] st]; simpl; [reflexivity|].
    destruct (dm !! "scopes") as [sc |]; simpl; [|reflexivity].
    eexists _, _. split; [reflexivity|]. right. split; reflexivity.
Qed.

(** X10. An authorization without a guild (key absent or null) never
    touches the connection state, whether the event goes through or fails
    on its user or scopes. *)
Theorem user_install_keeps_connection (em dm : gmap string json) (c : client) :
  em !! "type" = Some (JStr APPLICATION_AUTHORIZED) ->
  em !! "data" = Some (JObj dm) ->
  dm !! "guild" = None \/ dm !! "guild" = Some JNull ->
  _connection (snd (Client._dispatch_webhook_event (JObj em) c)) = _connection c.
Proof.
  intros Ht Hd Hg.
  unfold Client._dispatch_webhook_event, bind, eval, py_getitem, py_get, dispatch.
  rewrite Ht. simpl. rewrite Hd. simpl.
  destruct (dm !! "user") as [ud |]; simpl; [|reflexivity].
  destruct (User_new ud) as [e | user]; simpl; [reflexivity|].
  assert (py_is_None (default JNull (dm !! "guild")) = true) as ->
    by (destruct Hg as [-> | ->]; reflexivity).
  destruct (dm !! "scopes") as [sc |]; reflexivity.
Qed.

(** X11. The user is built before the guild is looked at: when the library
    rejects the user payload, the dispatcher raises that exception with the
    client untouched, and [_get_create_guild] has not run even if a guild
    payload is there. *)
Theorem rejected_user_leaves_client
    (em dm : gmap string json) (ud : json) (e : exn) (c : client) :
  em !! "type" = Some (JStr APPLICATION_AUTHORIZED) ->
  em !! "data" = Some (JObj dm) ->
  dm !! "user" = Some ud ->
  User_new ud = inl e ->
  Client._dispatch_webhook_event (JObj em) c = (inl e, c).
Proof.
  intros Ht Hd Hu Hn.
  unfold Client._dispatch_webhook_event, bind, eval, py_getitem, py_get.
  rewrite Ht. simpl. rewrite Hd. simpl. rewrite Hu. simpl. rewrite Hn.
  reflexivity.
Qed.

(** X12. The guild is resolved before [scopes] is looked up: a guild
    authorization without [scopes] raises [KeyError] and sends nothing, yet
    the client keeps the connection state [_get_create_guild] produced. *)
Theorem guild_kept_when_scopes_missing
    (em dm : gmap string json) (gd ud : json) (user : User)
    (guild : Guild) (st' : State) (c : client) :
  em !! "type" = Some (JStr APPLICATION_AUTHORIZED) ->
  em !! "data" = Some (JObj dm) ->
  dm !! "guild" = Some gd ->
  py_is_None gd = false ->
  dm !! "user" = Some ud ->
  User_new ud = inr user ->
  _get_create_guild gd (_connection c) = (inr guild, st') ->
  dm !! "scopes" = None ->
  Client._dispatch_webhook_event (JObj em) c
    = (inl (KeyError "scopes"), mkClient st' (dispatched c)).
Proof.
  intros Ht Hd Hg Hnn Hu Hn Hc Hs.
  unfold Client._dispatch_webhook_event, bind, eval, py_getitem, py_get,
    on_connection.
  rewrite Ht. simpl. rewrite Hd. simpl. rewrite Hg, Hu. simpl.
  rewrite Hn. simpl. rewrite Hnn, Hc. simpl. rewrite Hs. reflexivity.
Qed.

(** X13. When resolving the guild raises, the dispatcher raises the same
    exception, sends nothing, and leaves the connection state as the failed
    call left it. *)
Theorem guild_failure_propagates
    (em dm : gmap string json) (gd ud : json) (user : User)
    (e : exn) (st' : State) (c : client) :
  em !! "type" = Some (JStr APPLICATION_AUTHORIZED) ->
  em !! "data" = Some (JObj dm) ->
  dm !! "guild" = Some gd ->
  py_is_None gd = false ->
  dm !! "user" = Some ud ->
  User_new ud = inr user ->
  _get_create_guild gd (_connection c) = (inl e, st') ->
  Client._dispatch_webhook_event (JObj em) c
    = (inl e, mkClient st' (dispatched c)).
Proof.
  intros Ht Hd Hg Hnn Hu Hn Hc.
  unfold Client._dispatch_webhook_event, bind, eval, py_getitem, py_get,
    on_connection.
  rewrite Ht. simpl. rewrite Hd. simpl. rewrite Hg, Hu. simpl.
  rewrite Hn. simpl. rewrite Hnn, Hc. reflexivity.
Qed.

(** X14. Deliveries are not deduplicated: the same user authorization
    posted twice is answered 204 twice and sends "user_install" twice. *)
Theorem route_replay_notifies_again
    (m em dm : gmap string json) (v ud scopes : json) (user : User) (c : client) :
  m !! "type" = Some v ->
  py_eq_int v 1 = true ->
  m !! "event" = Some (JObj em) ->
  em !! "type" = Some (JStr APPLICATION_AUTHORIZED) ->
  em !! "data" = Some (JObj dm) ->
  dm !! "guild" = None \/ dm !! "guild" = Some JNull ->
  dm !! "user" = Some ud ->
  User_new ud = inr user ->
  dm !! "scopes" = Some scopes ->
  let note := ("user_install", [ArgUser user; ArgJson scopes]) in
  Client.__route (JObj m) (snd (Client.__route (JObj m) c))
    = (inr (Response_status 204),
       mkClient (_connection c) (dispatched c ++ [note; note])).
Proof.
  intros Hv H1 Hev Ht Hd Hg Hu Hn Hs note.
  assert (py_is_None (default JNull (dm !! "guild")) = true) as Hnone
    by (destruct Hg as [-> | ->]; reflexivity).
  rewrite !(route_event_branch m v (JObj em) _ Hv H1 Hev).
  rewrite (dispatch_authorized_no_guild em dm ud scopes user c Ht Hd Hnone Hu Hn Hs).
  simpl.
  rewrite (dispatch_authorized_no_guild em dm ud scopes user _ Ht Hd Hnone Hu Hn Hs).
  simpl. rewrite <- app_assoc. reflexivity.
Qed.
End Authorization.

(** ** The interactions route *)

Section Interactions.
Context `{B : Backend}.

(** X15. A body whose [type] equals 1, Discord's interaction ping, is
    answered with the JSON reply [{"type": 1}] and status 200; nothing is
    parsed and the client is untouched. *)
Theorem interactions_ping (m : gmap string json) (v : json) (c : client) :
  m !! "type" = Some v ->
  py_eq_int v 1 = true ->
  Client.__interactions_route (JObj m) c
    = (inr (mkResponse 200 (Some (JObj {[ "type" := JInt 1 ]}))), c).
Proof.
  intros Hv H1.
  unfold Client.__interactions_route, bind, eval, py_get.
  rewrite Hv. simpl. rewrite H1. reflexivity.
Qed.

(** X16. Every other object, whatever its [type] and also without one, is
    handed whole to [parse_interaction_create]; the route answers 204 when
    that returns and raises what it raises, and there is no 400 on this
    route. *)
Theorem interactions_forwarded (m : gmap string json) (c : client) :
  py_eq_int (type_field (JObj m)) 1 = false ->
  Client.__interactions_route (JObj m) c
    = answered_204 (connection_parse_interaction_create (JObj m) c).
Proof.
  simpl type_field. intros H1.
  unfold Client.__interactions_route, bind, eval, py_get, answered_204.
  simpl. rewrite H1.
  destruct (connection_parse_interaction_create (JObj m) c) as [[e | u] c'];
    reflexivity.
Qed.

(** X17. A body with [type] 0 is a ping for the webhook route, which leaves
    the client alone, but an interaction for the interactions route, which
    parses it. *)
Theorem ping_types_differ (m : gmap string json) (v : json) (c : client) :
  m !! "type" = Some v ->
  py_eq_int v 0 = true ->
  Client.__route (JObj m) c = (inr (Response_status 204), c) /\
  Client.__interactions_route (JObj m) c
    = answered_204 (connection_parse_interaction_create (JObj m) c).
Proof.
  intros Hv H0.
  assert (py_eq_int v 1 = false) as H1.
  { destruct (py_eq_int v 1) eqn:E; [|reflexivity].
    pose proof (py_eq_int_inj _ _ _ E H0). discriminate. }
  unfold Client.__route, Client.__interactions_route, bind, eval, py_get,
    answered_204.
  rewrite Hv. simpl. rewrite H0, H1. split; [reflexivity|].
  destruct (connection_parse_interaction_create (JObj m) c) as [[e | u] c'];
    reflexivity.
Qed.

(** X18. Which requests reach a handler: only a POST does; one to "/" runs
    the webhook route on every client; one to "/interactions" runs the
    interactions route, and only on a client constructed with
    [http_interactions]. *)
Theorem serve_reaches
    (http_interactions : bool) (method path : string) (data : json)
    (h : M Response) :
  serve http_interactions method path data = Some h <->
  method = "POST" /\
  ((path = "/" /\ h = Client.__route data) \/
   (http_interactions = true /\ path = "/interactions" /\
    h = Client.__interactions_route data)).
Proof.
  unfold serve, resolve, routes.
  destruct http_interactions;
    cbn [app List.find route_method route_path route_handler fmap option_fmap
           option_map];
    destruct (String.eqb_spec "POST" method) as [<- | Hm];
    destruct (String.eqb_spec "/" path) as [<- | Hp];
    try destruct (String.eqb_spec "/interactions" path) as [<- | Hp'];
    simpl; intuition congruence.
Qed.
End Interactions.

(** ** What the teardown does, and when it includes the site *)

Section Teardown.
Import Closing.

(** X19. The effects of one run of [_close()], for every state of the
    socket, the readiness event and the site: they come in the order of the
    source, none twice; the connection state is closed first and the loop
    cleared last, the HTTP session is always closed; the socket is closed
    only if open, and then with code 1000; the readiness event is cleared
    only if there is one; the site is stopped only if there is one. *)
Theorem teardown_contents (a : attrs) :
  let effects := performed a _close in
  effects `sublist_of`
    [ConnectionClose; WsClose 1000; ReadyClear; SiteStop; HttpClose; LoopMissing] /\
  NoDup effects /\
  head effects = Some ConnectionClose /\
  last effects = Some LoopMissing /\
  In HttpClose effects /\
  (forall code, In (WsClose code) effects <-> ws_open a = true /\ code = 1000) /\
  (In ReadyClear effects <-> ready_set a = true) /\
  (In SiteStop effects <-> site_set a = true).
Proof.
  assert (forall (x : action) l, In x l <-> x ∈ l) as Hin
    by (intros; symmetry; apply list_elem_of_In).
  destruct a as [[] [] []]; intros effects; subst effects;
    cbn [performed holds ws_open ready_set site_set _close];
    (split; [repeat first [apply sublist_skip | apply sublist_cons
                          | apply sublist_nil] |]);
    (split; [repeat constructor; rewrite <- Hin; cbn; intuition discriminate |]);
    (split; [reflexivity |]); (split; [reflexivity |]);
    (split; [cbn; tauto |]);
    (split; [intros code; cbn; intuition (try discriminate; try congruence) |]);
    split; cbn; intuition discriminate.
Qed.

(** X20. When [runner.setup()] raises, [start] raises the same exception
    having created neither the site nor a task, and a [close] after that
    does not stop any site. *)
Theorem start_setup_failure
    (token : string) (reconnect : bool) (host : string) (port : Z) (e : exn)
    (gather : Starting.coroutine -> Starting.coroutine -> exn + unit)
    (connect_to_ws ws_open ready_set : bool) :
  let f := Starting.__init__ connect_to_ws in
  Starting.start token reconnect host port (inl e) gather f = (inl e, f) /\
  ~ In SiteStop (performed (Starting.close_attrs ws_open ready_set f) _close).
Proof.
  split; [reflexivity|].
  destruct ws_open, ready_set; cbn; intuition discriminate.
Qed.

End Teardown.

(** ** The further properties on sample deliveries *)

Lemma route_event_outcome_sample :
  Client.__route (JObj (Samples.envelope (Samples.authorized Samples.user_data)))
      Reference.empty
    = answered_204
        (Client._dispatch_webhook_event
           (JObj (Samples.authorized Samples.user_data)) Reference.empty).
Proof.
  apply (route_event_outcome (B := Reference.backend)
           (Samples.envelope (Samples.authorized Samples.user_data)) (JInt 1)
           (JObj (Samples.authorized Samples.user_data)) Reference.empty);
    reflexivity.
Defined.

Lemma route_reads_type_and_event_sample :
  Client.__route (JObj Cases.full_envelope) Reference.empty
    = Client.__route
        (JObj (Samples.envelope (Samples.authorized Samples.user_data)))
        Reference.empty.
Proof.
  apply (route_reads_type_and_event (B := Reference.backend) Cases.full_envelope
           (Samples.envelope (Samples.authorized Samples.user_data))
           Reference.empty);
    reflexivity.
Defined.

Lemma dispatch_authorized_reads_three_keys_sample :
  Client._dispatch_webhook_event (JObj Cases.full_event) Reference.empty
    = Client._dispatch_webhook_event
        (JObj (Samples.authorized Samples.user_data)) Reference.empty.
Proof.
  apply (dispatch_authorized_reads_three_keys (B := Reference.backend)
           Cases.full_event (Samples.authorized Samples.user_data)
           (<["integration_type" := JInt 1]> Samples.user_data) Samples.user_data
           Reference.empty);
    reflexivity.
Defined.

Lemma route_response_status_sample :
  Response_status 400 = Response_status 204 \/
  (Response_status 400 = Response_status 400 /\ Reference.empty = Reference.empty).
Proof.
  apply (route_response_status (B := Reference.backend) (JObj Samples.odd_type)
           Reference.empty Reference.empty (Response_status 400)).
  reflexivity.
Defined.

Lemma route_body_not_object_sample :
  Client.__route (JList []) Reference.empty
    = (inl (AttributeError "get"), Reference.empty) /\
  Client.__interactions_route (JList []) Reference.empty
    = (inl (AttributeError "get"), Reference.empty).
Proof.
  apply (route_body_not_object (B := Reference.backend) (JList []) Reference.empty).
  reflexivity.
Defined.

Lemma route_event_not_object_sample :
  Client.__route (JObj Cases.event_not_object) Reference.empty
    = (inl TypeError, Reference.empty).
Proof.
  apply (route_event_not_object (B := Reference.backend) Cases.event_not_object
           (JInt 1) (JStr "APPLICATION_AUTHORIZED") Reference.empty);
    reflexivity.
Defined.

Lemma dispatch_authorized_data_not_object_sample :
  Client._dispatch_webhook_event (JObj Cases.data_not_object) Reference.empty
    = (inl (AttributeError "get"), Reference.empty).
Proof.
  apply (dispatch_authorized_data_not_object (B := Reference.backend)
           Cases.data_not_object (JList []) Reference.empty);
    reflexivity.
Defined.

Lemma authorized_notifies_iff_returns_sample :
  match
    Client._dispatch_webhook_event
      (JObj (Samples.authorized Cases.no_scopes_data)) Reference.empty
  with
  | (inl _, c') => dispatched c' = dispatched Reference.empty
  | (inr _, c') =>
      exists name args,
        dispatched c' = dispatched Reference.empty ++ [(name, args)] /\
        ((name = "user_install" /\ length args = 2%nat) \/
         (name = "guild_install" /\ length args = 3%nat))
  end.
Proof.
  apply (authorized_notifies_iff_returns (B := Reference.backend)
           (Samples.authorized Cases.no_scopes_data) Reference.empty).
  reflexivity.
Defined.

Lemma user_install_keeps_connection_sample :
  _connection
    (snd (Client._dispatch_webhook_event
            (JObj (Samples.authorized Samples.null_guild_data)) Reference.empty))
    = Reference.mkCache ∅ ∅.
Proof.
  apply (user_install_keeps_connection (B := Reference.backend)
           (Samples.authorized Samples.null_guild_data) Samples.null_guild_data
           Reference.empty);
    try reflexivity.
  right. reflexivity.
Defined.

Lemma rejected_user_leaves_client_sample :
  Client._dispatch_webhook_event
      (JObj (Samples.authorized Cases.rejected_user_data)) Reference.empty
    = (inl (KeyError "id"), Reference.empty).
Proof.
  apply (rejected_user_leaves_client (B := Reference.backend)
           (Samples.authorized Cases.rejected_user_data) Cases.rejected_user_data
           Cases.nameless_user (KeyError "id") Reference.empty);
    reflexivity.
Defined.

Lemma guild_kept_when_scopes_missing_sample :
  Client._dispatch_webhook_event
      (JObj (Samples.authorized Cases.no_scopes_data)) Reference.empty
    = (inl (KeyError "scopes"),
       mkClient (B := Reference.backend)
         (Reference.mkCache {[ 7 := Samples.guild ]} ∅) []).
Proof.
  apply (guild_kept_when_scopes_missing (B := Reference.backend)
           (Samples.authorized Cases.no_scopes_data) Cases.no_scopes_data
           Samples.guild Samples.user Samples.parsed_user Samples.parsed_guild
           (Reference.mkCache {[ 7 := Samples.guild ]} ∅) Reference.empty);
    reflexivity.
Defined.

Lemma guild_failure_propagates_sample :
  Client._dispatch_webhook_event
      (JObj (Samples.authorized Cases.rejected_guild_data)) Reference.empty
    = (inl (KeyError "id"), Reference.empty).
Proof.
  apply (guild_failure_propagates (B := Reference.backend)
           (Samples.authorized Cases.rejected_guild_data) Cases.rejected_guild_data
           (JObj ∅) Samples.user Samples.parsed_user (KeyError "id")
           (Reference.mkCache ∅ ∅) Reference.empty);
    reflexivity.
Defined.

Lemma route_replay_notifies_again_sample :
  let body := JObj (Samples.envelope (Samples.authorized Samples.user_data)) in
  let note := ("user_install", [ArgUser Samples.parsed_user; ArgJson Samples.scopes]) in
  Client.__route body (snd (Client.__route body Reference.empty))
    = (inr (Response_status 204),
       mkClient (B := Reference.backend) (Reference.mkCache ∅ ∅) [note; note]).
Proof.
  apply (route_replay_notifies_again (B := Reference.backend)
           (Samples.envelope (Samples.authorized Samples.user_data))
           (Samples.authorized Samples.user_data) Samples.user_data (JInt 1)
           Samples.user Samples.scopes Samples.parsed_user Reference.empty);
    try reflexivity.
  left. reflexivity.
Defined.

Lemma interactions_ping_sample :
  Client.__interactions_route (JObj Cases.interaction_ping) Reference.empty
    = (inr (mkResponse 200 (Some (JObj {[ "type" := JInt 1 ]}))), Reference.empty).
Proof.
  apply (interactions_ping (B := Reference.backend) Cases.interaction_ping
           (JInt 1) Reference.empty);
    reflexivity.
Defined.

Lemma interactions_forwarded_sample :
  Client.__interactions_route (JObj Cases.interaction) Reference.empty
    = answered_204
        (connection_parse_interaction_create (JObj Cases.interaction)
           Reference.empty).
Proof.
  apply (interactions_forwarded (B := Reference.backend) Cases.interaction
           Reference.empty).
  reflexivity.
Defined.

Lemma ping_types_differ_sample :
  Client.__route (JObj Samples.ping) Reference.empty
    = (inr (Response_status 204), Reference.empty) /\
  Client.__interactions_route (JObj Samples.ping) Reference.empty
    = answered_204
        (connection_parse_interaction_create (JObj Samples.ping) Reference.empty).
Proof.
  apply (ping_types_differ (B := Reference.backend) Samples.ping (JInt 0)
           Reference.empty);
    reflexivity.
Defined.

(** An interaction posted to the interactions route of the reference client
    is parsed and announced; posted as a webhook ping it would not be. *)
Example interactions_forwarded_run :
  Client.__interactions_route (JObj Cases.interaction) Reference.empty
    = (inr (Response_status 204),
       mkClient (B := Reference.backend) (Reference.mkCache ∅ ∅)
         [("interaction", [ArgJson (JObj Cases.interaction)])]).
Proof. reflexivity. Qed.

(** ** Deliveries of the declared type *)

Section Typed.
Context `{B : Backend}.

Lemma required_Some (m : gmap string json) (k : string) (ty : json -> bool) :
  Types.required m k ty = true -> exists v, m !! k = Some v /\ ty v = true.
Proof.
  unfold Types.required. destruct (m !! k) as [v |]; [|discriminate].
  intros H. exists v. split; [reflexivity | exact H].
Qed.

Lemma Literal_str_eq (s : string) (v : json) :
  Types.Literal_str s v = true -> v = JStr s.
Proof.
  destruct v; try discriminate. simpl. intros H.
  apply String.eqb_eq in H. congruence.
Qed.

Lemma is_JObj_eq (v : json) : is_JObj v = true -> exists m, v = JObj m.
Proof. destruct v; try discriminate. intros _. eexists. reflexivity. Qed.

(** The dispatcher on an authorization event of the declared type: an
    exception can only be the user's or the guild's. *)
Lemma typed_authorization_failure (m em : gmap string json) (c c' : client) (e : exn) :
  m !! "event" = Some (JObj em) ->
  Types.ApplicationAuthorisedEvent (JObj em) = true ->
  Client._dispatch_webhook_event (JObj em) c = (inl e, c') ->
  raised_by_library (_connection c) m e.
Proof.
  intros Hev Hty.
  simpl in Hty. apply andb_prop in Hty as [Hty Hdata].
  apply andb_prop in Hty as [Htype _].
  apply required_Some in Htype as (t & Ht & Hlit).
  apply Literal_str_eq in Hlit. subst t.
  apply required_Some in Hdata as (d & Hd & Hdty).
  destruct d as [| | | | | | dm]; try discriminate. simpl in Hdty.
  apply andb_prop in Hdty as [Hdty Hguild].
  apply andb_prop in Hdty as [Hdty Hscopes].
  apply andb_prop in Hdty as [_ Huser].
  apply required_Some in Huser as (ud & Hu & _).
  apply required_Some in Hscopes as (sc & Hs & _).
  unfold Client._dispatch_webhook_event, bind, eval, py_getitem, py_get,
    on_connection, dispatch.
  rewrite Ht. simpl. rewrite Hd. simpl. rewrite Hu. simpl.
  destruct (User_new ud) as [e' | user] eqn:Hn; simpl.
  - intros [= <- <-]. eapply raised_by_user; eassumption.
  - unfold Types.not_required in Hguild.
    destruct (dm !! "guild") as [gd |] eqn:Hg; simpl.
    + apply is_JObj_eq in Hguild as [gm ->]. simpl.
      destruct (_get_create_guild (JObj gm) (_connection c)) as [[e' | g] st'] eqn:Hc;
        simpl.
      * intros [= <- <-]. eapply raised_by_guild; eassumption.
      * rewrite Hs. discriminate.
    + rewrite Hs. discriminate.
Qed.

(** X22. A delivery of the type [WebhookEvent] as [types/events.py]
    declares it can make the route raise in two ways only: the envelope has
    [type] 1 and leaves out [event], which the type allows and the route
    subscripts; or a call into the library raised, on the user, the guild or
    the entitlement. No other lookup of the handler fails on it. *)
Theorem typed_delivery_failures (m : gmap string json) (c c' : client) (e : exn) :
  Types.WebhookEvent (JObj m) = true ->
  Client.__route (JObj m) c = (inl e, c') ->
  (m !! "type" = Some (JInt 1) /\ m !! "event" = None /\
   e = KeyError "event" /\ c' = c) \/
  raised_by_library (_connection c) m e.
Proof.
  intros Hty. simpl in Hty.
  apply andb_prop in Hty as [Hty Hevent].
  apply andb_prop in Hty as [_ Htype].
  apply required_Some in Htype as (t & Ht & Hlit).
  destruct t as [| | z | | | |]; try discriminate. simpl in Hlit.
  apply orb_prop in Hlit as [Hz | Hz]; apply Z.eqb_eq in Hz; subst z.
  - unfold Client.__route, bind, eval, py_get. rewrite Ht. simpl. discriminate.
  - unfold Types.not_required in Hevent.
    destruct (m !! "event") as [ev |] eqn:Hev.
    + rewrite (route_event_branch m (JInt 1) ev c Ht eq_refl Hev).
      unfold answered_204.
      destruct (Client._dispatch_webhook_event ev c) as [[e' | u] c1] eqn:Hd;
        [|discriminate].
      intros [= <- <-]. right.
      apply orb_prop in Hevent as [Haa | Hec].
      * destruct ev as [| | | | | | em]; try discriminate.
        eapply typed_authorization_failure; eassumption.
      * destruct ev as [| | | | | | em]; try discriminate.
        simpl in Hec. apply andb_prop in Hec as [Hec Hdata].
        apply andb_prop in Hec as [Hetype _].
        apply required_Some in Hetype as (t & Het & Hlit).
        apply Literal_str_eq in Hlit. subst t.
        apply required_Some in Hdata as (d & Hdd & _).
        rewrite (dispatch_entitlement_forwards em d c Het Hdd) in Hd.
        unfold connection_parse_entitlement_create, connection_parse in Hd.
        destruct (parse_entitlement_create d (_connection c)) as [[e1 | ns] st'] eqn:Hp;
          [|discriminate].
        injection Hd as <- <-. eapply raised_by_entitlement; eassumption.
    + unfold Client.__route, bind, eval, py_get, py_getitem.
      rewrite Ht. simpl. rewrite Hev. simpl.
      intros [= <- <-]. left. repeat split; reflexivity.
Qed.
End Typed.

Lemma typed_delivery_failures_sample :
  (typed_rejected_envelope !! "type" = Some (JInt 1) /\
   typed_rejected_envelope !! "event" = None /\
   KeyError "id" = KeyError "event" /\ Reference.empty = Reference.empty) \/
  raised_by_library (B := Reference.backend) (Reference.mkCache ∅ ∅)
    typed_rejected_envelope (KeyError "id").
Proof.
  apply (typed_delivery_failures (B := Reference.backend) typed_rejected_envelope
           Reference.empty Reference.empty (KeyError "id"));
    reflexivity.
Defined.

(** ** Entitlements *)

Section EntitlementCreate.
Context `{B : Backend}.

(** C3, as amended. An entitlement event: the dispatcher hands
    [event['data']] to [parse_entitlement_create] and does nothing else. The
    connection state, the notifications and a raised exception are exactly
    those of that entry point; the dispatcher inserts nothing of its own, so
    what the cache holds afterwards, for any id, is what the entry point
    left in it. *)
Theorem dispatch_entitlement_forwarded
    (em : gmap string json) (d : json) (c : client) :
  em !! "type" = Some (JStr ENTITLEMENT_CREATE) ->
  em !! "data" = Some d ->
  Client._dispatch_webhook_event (JObj em) c
    = match parse_entitlement_create d (_connection c) with
      | (inr ns, st') => (inr tt, mkClient st' (dispatched c ++ ns))
      | (inl e, st') => (inl e, mkClient st' (dispatched c))
      end /\
  forall z,
    get_entitlement (_connection (snd (Client._dispatch_webhook_event (JObj em) c))) z
      = get_entitlement (snd (parse_entitlement_create d (_connection c))) z.
Proof.
  intros Ht Hd.
  assert (Client._dispatch_webhook_event (JObj em) c
          = match parse_entitlement_create d (_connection c) with
            | (inr ns, st') => (inr tt, mkClient st' (dispatched c ++ ns))
            | (inl e, st') => (inl e, mkClient st' (dispatched c))
            end) as E.
  { unfold ENTITLEMENT_CREATE in Ht.
    unfold Client._dispatch_webhook_event, bind, eval, py_getitem,
      connection_parse_entitlement_create, connection_parse.
    rewrite Ht. simpl. rewrite Hd. simpl.
    destruct (parse_entitlement_create d (_connection c)) as [[e | ns] st'];
      reflexivity. }
  split; [exact E|].
  intros z. rewrite E.
  destruct (parse_entitlement_create d (_connection c)) as [[e | ns] st'];
    reflexivity.
Qed.
End EntitlementCreate.

Lemma dispatch_entitlement_forwarded_sample :
  Client._dispatch_webhook_event (JObj Gateway.entitlement_create) Gateway.empty
    = (inr tt,
       mkClient (B := Gateway.backend) (Reference.mkCache ∅ ∅)
         [("entitlement_create", [ArgEntitlement Gateway.parsed_entitlement])]) /\
  forall z,
    Reference.lookup_entitlement
      (_connection
         (snd (Client._dispatch_webhook_event (JObj Gateway.entitlement_create)
                 Gateway.empty))) z
      = Reference.lookup_entitlement (Reference.mkCache ∅ ∅) z.
Proof.
  apply (dispatch_entitlement_forwarded (B := Gateway.backend)
           Gateway.entitlement_create Gateway.entitlement Gateway.empty);
    reflexivity.
Defined.

(** C3 as the spec words it fails. On a client whose connection state
    parses an entitlement without storing it, the delivery goes through, the
    "entitlement_create" notification is sent, and no entitlement can be
    read back under any id: nothing in the dispatcher puts it in a cache. *)
Lemma entitlement_not_retrievable :
  Client._dispatch_webhook_event (JObj Gateway.entitlement_create) Gateway.empty
    = (inr tt,
       mkClient (B := Gateway.backend) (Reference.mkCache ∅ ∅)
         [("entitlement_create", [ArgEntitlement Gateway.parsed_entitlement])]) /\
  (forall z,
      @get_entitlement Gateway.backend
        (_connection
           (snd (Client._dispatch_webhook_event (JObj Gateway.entitlement_create)
                   Gateway.empty))) z
        = None) /\
  ~ (forall (B : Backend) (em : gmap string json) (d : json) (c c' : client),
       em !! "type" = Some (JStr ENTITLEMENT_CREATE) ->
       em !! "data" = Some d ->
       Client._dispatch_webhook_event (JObj em) c = (inr tt, c') ->
       exists e, get_entitlement (_connection c') (entitlement_id e) = Some e).
Proof.
  assert (forall z, Reference.lookup_entitlement (Reference.mkCache ∅ ∅) z = None)
    as Hnone.
  { intros z. unfold Reference.lookup_entitlement. simpl.
    rewrite lookup_empty. reflexivity. }
  split; [reflexivity|]. split.
  - intros z. exact (Hnone z).
  - intros H.
    destruct (H Gateway.backend Gateway.entitlement_create Gateway.entitlement
                Gateway.empty
                (mkClient (B := Gateway.backend) (Reference.mkCache ∅ ∅)
                   [("entitlement_create",
                     [ArgEntitlement Gateway.parsed_entitlement])])
                eq_refl eq_refl eq_refl) as [e He].
    simpl in He. rewrite Hnone in He. discriminate.
Qed.
